(** * z2m-homekit: the state-synchronisation core, embedded in Rocq

    A shallow embedding of the Go packages [devices], [events] and of the
    bus-ingestion hook and accessory adapter of the root package, followed by
    the properties of the value codec, the registry loader, the event fabric's
    deduplication, the selective merge and the accessory state application.

    Conventions of the embedding:
    - Go's [int] is [Z]; no function below performs arithmetic on an [int]
      that could leave the 64-bit range, so no wrap-around appears.
    - Go's [float64] is the kernel's binary64 ([PrimFloat.float]), so that the
      codec's [int(float64(v) * 100.0 / 254.0)] is computed as the hardware
      computes it.
    - A Go pointer to a scalar ([*bool], [*int], [*float64]) is an [option]:
      the pointees are written once, when the pointer is created, and never
      through the pointer afterwards, so sharing is not observable.
    - A Go [map[string]T] is a [gmap string T].
    - Calls into collaborators (logger, tailscale eventbus publisher, MQTT
      server, HAP characteristics) are recorded, in order, as a list of
      [Effect]s returned next to the updated state.
    - [time.Now()] readings are arguments of the function that takes them. *)

From Stdlib Require Import ZArith Floats Lia.
From stdpp Require Import base option list gmap strings pretty.

Set Warnings "-register-all".
#[local] Open Scope Z_scope.

(** ** Go runtime values *)

Abbreviation int := Z (only parsing).
Abbreviation float64 := float (only parsing).

Definition int_min : Z := - 2 ^ 63.
Definition int_max : Z := 2 ^ 63 - 1.

(** [float64(z)]: the integer, rounded to the nearest binary64. *)
Definition float64_of_int (z : Z) : float64 :=
  SF2Prim (binary_normalize prec emax z 0 false).

(** [int(f)]: truncation towards zero.  Where the truncated value does not fit
    an [int] (or [f] is an infinity or a NaN) the Go specification leaves the
    result to the implementation; amd64 yields the smallest [int]. *)
Definition int_of_float64 (f : float64) : Z :=
  match Prim2SF f with
  | S754_zero _ => 0
  | S754_finite s m e =>
      let mag := match e with
                 | Zneg p => Z.shiftr (Zpos m) (Zpos p)
                 | _ => Z.shiftl (Zpos m) e
                 end in
      let v := if s then - mag else mag in
      if (int_min <=? v) && (v <=? int_max) then v else int_min
  | _ => int_min
  end.

(** [time.Time] as an instant: nanoseconds counted from the zero [Time]. *)
Abbreviation Time := Z (only parsing).
Abbreviation Duration := Z (only parsing).

Definition Second : Duration := 1000000000.
Definition time_zero : Time := 0.
Definition IsZero (t : Time) : bool := t =? 0.
Definition time_Equal (t u : Time) : bool := t =? u.

(** [t.Sub(u)], which saturates at the bounds of [Duration]. *)
Definition time_Sub (t u : Time) : Duration :=
  Z.max int_min (Z.min int_max (t - u)).

(** [time.Since(t)] read at the instant [now]. *)
Definition Since (now t : Time) : Duration := time_Sub now t.

(** The double-quote character, and a string in double quotes. *)
Definition dquote : string := String (Ascii.ascii_of_N 34) EmptyString.
Definition quoted (s : string) : string := dquote +:+ s +:+ dquote.

(** What the embedding takes from Go's standard library without modelling it:
    the text of a duration rounded to the second
    ([d.Round(time.Second).String()]) and the text [encoding/json] writes for
    a finite [float64]. *)
Class GoLib := {
  roundedString : Duration -> string;
  formatFloat64 : float64 -> string
}.

(** ** Package devices: configuration types *)

(** [type DeviceType string] *)
Abbreviation DeviceType := string (only parsing).

Definition DeviceTypeClimateSensor : DeviceType := "climate_sensor".
Definition DeviceTypeOccupancySensor : DeviceType := "occupancy_sensor".
Definition DeviceTypeContactSensor : DeviceType := "contact_sensor".
Definition DeviceTypeLeakSensor : DeviceType := "leak_sensor".
Definition DeviceTypeSmokeSensor : DeviceType := "smoke_sensor".
Definition DeviceTypeLightbulb : DeviceType := "lightbulb".
Definition DeviceTypeOutlet : DeviceType := "outlet".
Definition DeviceTypeSwitch : DeviceType := "switch".
Definition DeviceTypeFan : DeviceType := "fan".

Module DeviceFeatures.
Record t := mk {
  Temperature : bool;
  Humidity : bool;
  Battery : bool;
  Occupancy : bool;
  Illuminance : bool;
  Pressure : bool;
  Contact : bool;
  WaterLeak : bool;
  Smoke : bool;
  Tamper : bool;
  Brightness : bool;
  Color : bool;
  ColorTemperature : bool;
  Speed : bool;
  Direction : bool;
  Swing : bool
}.

Definition none : t :=
  mk false false false false false false false false
     false false false false false false false false.
End DeviceFeatures.

Module Device.
Record t := mk {
  ID : string;
  Name : string;
  Topic : string;
  Type_ : DeviceType;
  Features : DeviceFeatures.t;
  HomeKit : option bool;
  Web : option bool
}.
End Device.

(** [Config.Devices]: the document after [hujson.Standardize] and
    [json.Unmarshal]. *)
Abbreviation Config := (list Device.t) (only parsing).

Definition isValidDeviceType (t : DeviceType) : bool :=
  String.eqb t DeviceTypeClimateSensor || String.eqb t DeviceTypeOccupancySensor
  || String.eqb t DeviceTypeContactSensor || String.eqb t DeviceTypeLeakSensor
  || String.eqb t DeviceTypeSmokeSensor || String.eqb t DeviceTypeLightbulb
  || String.eqb t DeviceTypeOutlet || String.eqb t DeviceTypeSwitch
  || String.eqb t DeviceTypeFan.

(** The errors [LoadConfig] builds with [fmt.Errorf]. *)
Inductive ConfigError :=
| ErrReadFile                       (* failed to read devices config file *)
| ErrStandardize                    (* failed to standardize HuJSON *)
| ErrUnmarshal                      (* failed to unmarshal devices config *)
| ErrNoDevices                      (* no devices configured *)
| ErrNoID (i : nat)                 (* device %d has no ID *)
| ErrNoName (id : string)           (* device %s has no name *)
| ErrNoTopic (id : string)          (* device %s has no topic *)
| ErrNoType (id : string)           (* device %s has no type *)
| ErrInvalidType (id : string) (ty : DeviceType)
                                    (* device %s has invalid type %q *)
| ErrDuplicateID (id : string).     (* duplicate device id %q *)

(** How far the three fallible steps before validation got: reading the file,
    standardising HuJSON, unmarshalling into [Config]. *)
Inductive Decoded :=
| ReadFailed
| StandardizeFailed
| UnmarshalFailed
| DecodedConfig (devices : Config).

Definition default_true (o : option bool) : option bool :=
  match o with
  | None => Some true
  | Some b => Some b
  end.

(** The defaults written into [cfg.Devices[i]] at the end of an iteration. *)
Definition withDefaults (d : Device.t) : Device.t :=
  Device.mk (Device.ID d) (Device.Name d) (Device.Topic d) (Device.Type_ d)
            (Device.Features d)
            (default_true (Device.HomeKit d)) (default_true (Device.Web d)).

(** The validation loop of [LoadConfig], from index [i] on, with the
    identifiers seen so far; it returns the devices with their defaults. *)
Fixpoint validateFrom (i : nat) (seenIDs : gset string) (ds : list Device.t)
  : ConfigError + list Device.t :=
  match ds with
  | [] => inr []
  | device :: rest =>
      if String.eqb (Device.ID device) EmptyString then inl (ErrNoID i)
      else if String.eqb (Device.Name device) EmptyString
      then inl (ErrNoName (Device.ID device))
      else if String.eqb (Device.Topic device) EmptyString
      then inl (ErrNoTopic (Device.ID device))
      else if String.eqb (Device.Type_ device) EmptyString
      then inl (ErrNoType (Device.ID device))
      else if negb (isValidDeviceType (Device.Type_ device))
      then inl (ErrInvalidType (Device.ID device) (Device.Type_ device))
      else if bool_decide (Device.ID device ∈ seenIDs)
      then inl (ErrDuplicateID (Device.ID device))
      else
        match validateFrom (S i) ({[ Device.ID device ]} ∪ seenIDs) rest with
        | inl e => inl e
        | inr rest' => inr (withDefaults device :: rest')
        end
  end.

(** [LoadConfig]: [inl] is the Go result [(nil, err)], [inr] is
    [(&cfg, nil)]. *)
Definition LoadConfig (doc : Decoded) : ConfigError + Config :=
  match doc with
  | ReadFailed => inl ErrReadFile
  | StandardizeFailed => inl ErrStandardize
  | UnmarshalFailed => inl ErrUnmarshal
  | DecodedConfig devices =>
      if (length devices =? 0)%nat then inl ErrNoDevices
      else validateFrom 0 ∅ devices
  end.

(** ** Package devices: runtime state and the value codec *)

Module State.
Record t := mk {
  ID : string;
  Name : string;
  (* Sensor values *)
  Temperature : option float64;
  Humidity : option float64;
  Battery : option int;
  Occupancy : option bool;
  Illuminance : option int;
  Pressure : option float64;
  Contact : option bool;       (* true = closed, false = open *)
  WaterLeak : option bool;
  Smoke : option bool;
  Tamper : option bool;
  (* Light values *)
  On : option bool;
  Brightness : option int;     (* 0-254, the Z2M scale *)
  Hue : option float64;
  Saturation : option float64;
  ColorTemp : option int;      (* mireds *)
  (* Fan values *)
  FanSpeed : option int;
  FanDirection : option bool;
  FanSwing : option bool;
  (* Connectivity *)
  LinkQuality : int;
  LastUpdated : Time;
  LastSeen : Time
}.

(** [State{ID: id, Name: name, LastUpdated: lu, LastSeen: ls}] *)
Definition init (id name : string) (lu ls : Time) : t :=
  mk id name None None None None None None None None None None
     None None None None None None None None 0 lu ls.

(** Field assignments [state.F = v]. *)
Definition set_Temperature (v : option float64) (s : t) : t :=
  let 'mk id nm _ hu ba oc il pr co wl sm ta on br hu' sa ct fs fd fw lq lu ls := s in
  mk id nm v hu ba oc il pr co wl sm ta on br hu' sa ct fs fd fw lq lu ls.
Definition set_Humidity (v : option float64) (s : t) : t :=
  let 'mk id nm te _ ba oc il pr co wl sm ta on br hu' sa ct fs fd fw lq lu ls := s in
  mk id nm te v ba oc il pr co wl sm ta on br hu' sa ct fs fd fw lq lu ls.
Definition set_Battery (v : option int) (s : t) : t :=
  let 'mk id nm te hu _ oc il pr co wl sm ta on br hu' sa ct fs fd fw lq lu ls := s in
  mk id nm te hu v oc il pr co wl sm ta on br hu' sa ct fs fd fw lq lu ls.
Definition set_Occupancy (v : option bool) (s : t) : t :=
  let 'mk id nm te hu ba _ il pr co wl sm ta on br hu' sa ct fs fd fw lq lu ls := s in
  mk id nm te hu ba v il pr co wl sm ta on br hu' sa ct fs fd fw lq lu ls.
Definition set_Illuminance (v : option int) (s : t) : t :=
  let 'mk id nm te hu ba oc _ pr co wl sm ta on br hu' sa ct fs fd fw lq lu ls := s in
  mk id nm te hu ba oc v pr co wl sm ta on br hu' sa ct fs fd fw lq lu ls.
Definition set_Pressure (v : option float64) (s : t) : t :=
  let 'mk id nm te hu ba oc il _ co wl sm ta on br hu' sa ct fs fd fw lq lu ls := s in
  mk id nm te hu ba oc il v co wl sm ta on br hu' sa ct fs fd fw lq lu ls.
Definition set_Contact (v : option bool) (s : t) : t :=
  let 'mk id nm te hu ba oc il pr _ wl sm ta on br hu' sa ct fs fd fw lq lu ls := s in
  mk id nm te hu ba oc il pr v wl sm ta on br hu' sa ct fs fd fw lq lu ls.
Definition set_WaterLeak (v : option bool) (s : t) : t :=
  let 'mk id nm te hu ba oc il pr co _ sm ta on br hu' sa ct fs fd fw lq lu ls := s in
  mk id nm te hu ba oc il pr co v sm ta on br hu' sa ct fs fd fw lq lu ls.
Definition set_Smoke (v : option bool) (s : t) : t :=
  let 'mk id nm te hu ba oc il pr co wl _ ta on br hu' sa ct fs fd fw lq lu ls := s in
  mk id nm te hu ba oc il pr co wl v ta on br hu' sa ct fs fd fw lq lu ls.
Definition set_Tamper (v : option bool) (s : t) : t :=
  let 'mk id nm te hu ba oc il pr co wl sm _ on br hu' sa ct fs fd fw lq lu ls := s in
  mk id nm te hu ba oc il pr co wl sm v on br hu' sa ct fs fd fw lq lu ls.
Definition set_On (v : option bool) (s : t) : t :=
  let 'mk id nm te hu ba oc il pr co wl sm ta _ br hu' sa ct fs fd fw lq lu ls := s in
  mk id nm te hu ba oc il pr co wl sm ta v br hu' sa ct fs fd fw lq lu ls.
Definition set_Brightness (v : option int) (s : t) : t :=
  let 'mk id nm te hu ba oc il pr co wl sm ta on _ hu' sa ct fs fd fw lq lu ls := s in
  mk id nm te hu ba oc il pr co wl sm ta on v hu' sa ct fs fd fw lq lu ls.
Definition set_Hue (v : option float64) (s : t) : t :=
  let 'mk id nm te hu ba oc il pr co wl sm ta on br _ sa ct fs fd fw lq lu ls := s in
  mk id nm te hu ba oc il pr co wl sm ta on br v sa ct fs fd fw lq lu ls.
Definition set_Saturation (v : option float64) (s : t) : t :=
  let 'mk id nm te hu ba oc il pr co wl sm ta on br hu' _ ct fs fd fw lq lu ls := s in
  mk id nm te hu ba oc il pr co wl sm ta on br hu' v ct fs fd fw lq lu ls.
Definition set_ColorTemp (v : option int) (s : t) : t :=
  let 'mk id nm te hu ba oc il pr co wl sm ta on br hu' sa _ fs fd fw lq lu ls := s in
  mk id nm te hu ba oc il pr co wl sm ta on br hu' sa v fs fd fw lq lu ls.
Definition set_FanSpeed (v : option int) (s : t) : t :=
  let 'mk id nm te hu ba oc il pr co wl sm ta on br hu' sa ct _ fd fw lq lu ls := s in
  mk id nm te hu ba oc il pr co wl sm ta on br hu' sa ct v fd fw lq lu ls.
Definition set_LinkQuality (v : int) (s : t) : t :=
  let 'mk id nm te hu ba oc il pr co wl sm ta on br hu' sa ct fs fd fw _ lu ls := s in
  mk id nm te hu ba oc il pr co wl sm ta on br hu' sa ct fs fd fw v lu ls.
Definition set_LastUpdated (v : Time) (s : t) : t :=
  let 'mk id nm te hu ba oc il pr co wl sm ta on br hu' sa ct fs fd fw lq _ ls := s in
  mk id nm te hu ba oc il pr co wl sm ta on br hu' sa ct fs fd fw lq v ls.
Definition set_LastSeen (v : Time) (s : t) : t :=
  let 'mk id nm te hu ba oc il pr co wl sm ta on br hu' sa ct fs fd fw lq lu _ := s in
  mk id nm te hu ba oc il pr co wl sm ta on br hu' sa ct fs fd fw lq lu v.
End State.

Module StateChangedEvent.
Record t := mk {
  DeviceID : string;
  State : State.t;
  UpdatedFields : list string
}.
End StateChangedEvent.

Module CommandEvent.
Record t := mk {
  DeviceID : string;
  On : option bool;
  Brightness : option int;     (* 0-100, the HAP scale *)
  Hue : option float64;
  Saturation : option float64;
  ColorTemp : option int
}.
End CommandEvent.

(** Z2M brightness (0-254) to HAP brightness (0-100). *)
Definition Z2MBrightnessToHAP (z2m : int) : int :=
  if z2m <=? 0 then 0
  else if z2m >=? 254 then 100
  else int_of_float64 (float64_of_int z2m * 100 / 254)%float.

(** HAP brightness (0-100) to Z2M brightness (0-254). *)
Definition HAPBrightnessToZ2M (hap : int) : int :=
  if hap <=? 0 then 0
  else if hap >=? 100 then 254
  else int_of_float64 (float64_of_int hap * 254 / 100)%float.

(** [ClampColorTemp] clamps to the HAP range 140-500. *)
Definition ClampColorTemp (ct : int) : int :=
  if ct <? 140 then 140
  else if ct >? 500 then 500
  else ct.

Definition Z2MStateToBool (state : string) : bool := String.eqb state "ON".

Definition BoolToZ2MState (on : bool) : string := if on then "ON" else "OFF".

(** ** Package events *)

(** [type ClientName string] *)
Abbreviation ClientName := string (only parsing).

Definition ClientDeviceManager : ClientName := "devicemanager".
Definition ClientHAP : ClientName := "hap".
Definition ClientWeb : ClientName := "web".
Definition ClientMQTT : ClientName := "mqtt".
Definition ClientMetrics : ClientName := "metrics".

Definition ptrBoolEqual (a b : option bool) : bool :=
  match a, b with
  | None, None => true
  | Some x, Some y => Bool.eqb x y
  | _, _ => false
  end.

Definition ptrIntEqual (a b : option int) : bool :=
  match a, b with
  | None, None => true
  | Some x, Some y => x =? y
  | _, _ => false
  end.

Definition eps : float64 := 0x1.0624dd2f1a9fcp-10%float.  (* 0.001 *)

Definition ptrFloatEqual (a b : option float64) : bool :=
  match a, b with
  | None, None => true
  | Some x, Some y =>
      let diff := (x - y)%float in
      let diff := if (diff <? 0)%float then (- diff)%float else diff in
      (diff <? eps)%float
  | _, _ => false
  end.

Module StateUpdateEvent.
Record t := mk {
  Timestamp : Time;
  Source : string;
  DeviceID : string;
  Name : string;
  (* Sensor values *)
  Temperature : option float64;
  Humidity : option float64;
  Battery : option int;
  Occupancy : option bool;
  Illuminance : option int;
  Pressure : option float64;
  Contact : option bool;
  WaterLeak : option bool;
  Smoke : option bool;
  Tamper : option bool;
  (* Light values *)
  On : option bool;
  Brightness : option int;     (* 0-100, the HAP scale *)
  Hue : option float64;
  Saturation : option float64;
  ColorTemp : option int;
  (* Fan values *)
  FanSpeed : option int;
  (* Connectivity *)
  LinkQuality : int;
  LastSeen : Time;
  LastUpdated : Time;
  ConnectionState : string;
  ConnectionNote : string
}.

(** [Equals] reports whether two events carry the same logical state,
    ignoring [Timestamp] and [Source]. *)
Definition Equals (e other : t) : bool :=
  String.eqb (DeviceID e) (DeviceID other)
  && String.eqb (Name e) (Name other)
  && ptrBoolEqual (On e) (On other)
  && ptrIntEqual (Brightness e) (Brightness other)
  && ptrFloatEqual (Hue e) (Hue other)
  && ptrFloatEqual (Saturation e) (Saturation other)
  && ptrIntEqual (ColorTemp e) (ColorTemp other)
  && ptrFloatEqual (Temperature e) (Temperature other)
  && ptrFloatEqual (Humidity e) (Humidity other)
  && ptrIntEqual (Battery e) (Battery other)
  && ptrBoolEqual (Occupancy e) (Occupancy other)
  && ptrIntEqual (Illuminance e) (Illuminance other)
  && ptrFloatEqual (Pressure e) (Pressure other)
  && ptrBoolEqual (Contact e) (Contact other)
  && ptrBoolEqual (WaterLeak e) (WaterLeak other)
  && ptrBoolEqual (Smoke e) (Smoke other)
  && ptrBoolEqual (Tamper e) (Tamper other)
  && ptrIntEqual (FanSpeed e) (FanSpeed other)
  && (LinkQuality e =? LinkQuality other)
  && time_Equal (LastSeen e) (LastSeen other)
  && time_Equal (LastUpdated e) (LastUpdated other)
  && String.eqb (ConnectionState e) (ConnectionState other)
  && String.eqb (ConnectionNote e) (ConnectionNote other).
End StateUpdateEvent.

(** ** Calls into collaborators *)

Inductive Level := Debug | Info | Warn | Error.

(** A Go [error]: a message, possibly wrapping a cause ([%w]). *)
Inductive GoError :=
| ErrText (msg : string)
| ErrWrap (msg : string) (cause : GoError).

(** The HAP characteristics the adapter writes. *)
Inductive Characteristic :=
| CurrentTemperature | CurrentRelativeHumidity | OccupancyDetected
| BatteryLevel | StatusLowBattery | ContactSensorState | LeakDetected
| SmokeDetected | LightbulbOn | OutletOn | Brightness | Hue | Saturation
| ColorTemperature | FanOn | RotationSpeed.

Inductive CharValue :=
| BoolValue (b : bool)
| IntValue (n : int)
| FloatValue (f : float64).

Inductive Effect :=
(** [logger.Debug/Info/Warn/Error(msg, ...)]; [about] is the device identifier
    (or, in the hook, the topic) that the line is about *)
| Log (level : Level) (msg : string) (about : string)
(** [statePublisher.Publish(StateChangedEvent{...})] *)
| PublishStateChanged (event : StateChangedEvent.t)
(** [eventbus.Publish[StateUpdateEvent](client).Publish(event)]: the event is
    handed to the subscribers of the fabric *)
| Deliver (client : ClientName) (event : StateUpdateEvent.t)
(** [errorPublisher.Publish(ErrorEvent{DeviceID, Error})] *)
| PublishError (device_id : string) (err : GoError)
(** [mqttServer.Publish(topic, data, false, 0)] *)
| MQTTPublish (topic : string) (data : string)
(** [characteristic.SetValue(v)] on the accessory of a device *)
| SetValue (device_id : string) (c : Characteristic) (v : CharValue).

(** ** The event fabric *)

Record Bus := mkBus {
  clients : gset string;                       (* the registered client names *)
  lastStates : gmap string StateUpdateEvent.t
}.

(** [events.New]: the five known clients, an empty deduplication cache. *)
Definition New : Bus :=
  mkBus ({[ ClientDeviceManager ]} ∪ {[ ClientHAP ]} ∪ {[ ClientWeb ]}
         ∪ {[ ClientMQTT ]} ∪ {[ ClientMetrics ]}) ∅.

(** [Bus.Client]: the named client, or the error "client %q not found". *)
Definition Client (b : Bus) (name : ClientName) : GoError + ClientName :=
  if bool_decide (name ∈ clients b) then inr name
  else inl (ErrText ("client " +:+ quoted name +:+ " not found")).

(** [PublishStateUpdate] emits a deduplicated state update event. *)
Definition PublishStateUpdate (b : Bus) (client : ClientName)
    (event : StateUpdateEvent.t) : Bus * list Effect :=
  let id := StateUpdateEvent.DeviceID event in
  let last := lastStates b !! id in
  if match last with
     | Some last => StateUpdateEvent.Equals event last
     | None => false
     end
  then (b, [Log Debug "skipping duplicate state update" id])
  else (mkBus (clients b) (<[ id := event ]> (lastStates b)),
        [Log Debug "publishing state update" id; Deliver client event]).

(** [Bus.Close] releases every client. *)
Definition Close (b : Bus) : Bus := mkBus ∅ (lastStates b).

(** ** Package devices: the manager *)

Record Manager := mkManager {
  devices : gmap string Device.t;      (* map[string]*Info, Info{Config} *)
  states : gmap string State.t;        (* map[string]*State *)
  (** [eventBus] and [stateEventClient] are both non-nil *)
  eventBus : bool;
  (** the outcome of [mqttServer.Publish(topic, data, false, 0)] *)
  mqttServer : string -> string -> option GoError
}.

Definition connectionStatus `{GoLib} (now lastSeen : Time) : string * string :=
  if IsZero lastSeen then ("disconnected", "Never seen")
  else
    let since := Since now lastSeen in
    let note := "Last seen: " +:+ roundedString since +:+ " ago" in
    if since <? 30 * Second then ("connected", note)
    else if since <? 60 * Second then ("stale", note)
    else ("disconnected", note).

(** The event [publishStateUpdate] builds from a state; [sinceAt] is the clock
    read by [time.Since], [stampAt] the one read for [Timestamp]. *)
Definition stateUpdateOf `{GoLib} (dm : Manager) (sinceAt stampAt : Time)
    (source deviceID : string) (state : State.t) : StateUpdateEvent.t :=
  let name := match devices dm !! deviceID with
              | Some info => Device.Name info
              | None => deviceID
              end in
  let '(connectionState, connectionNote) :=
    connectionStatus sinceAt (State.LastSeen state) in
  (* Convert brightness to HAP scale for events *)
  let brightnessHAP := match State.Brightness state with
                       | Some b => Some (Z2MBrightnessToHAP b)
                       | None => None
                       end in
  {| StateUpdateEvent.Timestamp := stampAt;
     StateUpdateEvent.Source := source;
     StateUpdateEvent.DeviceID := deviceID;
     StateUpdateEvent.Name := name;
     StateUpdateEvent.On := State.On state;
     StateUpdateEvent.Brightness := brightnessHAP;
     StateUpdateEvent.Hue := State.Hue state;
     StateUpdateEvent.Saturation := State.Saturation state;
     StateUpdateEvent.ColorTemp := State.ColorTemp state;
     StateUpdateEvent.Temperature := State.Temperature state;
     StateUpdateEvent.Humidity := State.Humidity state;
     StateUpdateEvent.Battery := State.Battery state;
     StateUpdateEvent.Occupancy := State.Occupancy state;
     StateUpdateEvent.Illuminance := State.Illuminance state;
     StateUpdateEvent.Pressure := State.Pressure state;
     StateUpdateEvent.Contact := State.Contact state;
     StateUpdateEvent.WaterLeak := State.WaterLeak state;
     StateUpdateEvent.Smoke := State.Smoke state;
     StateUpdateEvent.Tamper := State.Tamper state;
     StateUpdateEvent.FanSpeed := State.FanSpeed state;
     StateUpdateEvent.LinkQuality := State.LinkQuality state;
     StateUpdateEvent.LastSeen := State.LastSeen state;
     StateUpdateEvent.LastUpdated := State.LastUpdated state;
     StateUpdateEvent.ConnectionState := connectionState;
     StateUpdateEvent.ConnectionNote := connectionNote |}.

Definition publishStateUpdate `{GoLib} (dm : Manager) (bus : Bus)
    (sinceAt stampAt : Time) (source deviceID : string) (state : State.t)
  : Bus * list Effect :=
  if negb (eventBus dm) then (bus, [])
  else PublishStateUpdate bus ClientDeviceManager
         (stateUpdateOf dm sinceAt stampAt source deviceID state).

(** The loop of [NewManager] over the configured devices.  [clock] is the
    sequence of [time.Now()] readings and [n] the number already taken: an
    iteration reads it for [LastUpdated], for [time.Since] and for
    [Timestamp]. *)
Fixpoint initDevices `{GoLib} (clock : nat -> Time) (n : nat) (dm : Manager)
    (bus : Bus) (deviceConfigs : list Device.t) : Manager * Bus * list Effect :=
  match deviceConfigs with
  | [] => (dm, bus, [])
  | deviceConfig :: rest =>
      let id := Device.ID deviceConfig in
      let st := State.init id (Device.Name deviceConfig) (clock n) time_zero in
      let dm1 := mkManager (<[ id := deviceConfig ]> (devices dm))
                           (<[ id := st ]> (states dm))
                           (eventBus dm) (mqttServer dm) in
      let '(bus1, out1) :=
        publishStateUpdate dm1 bus (clock (n + 1)%nat) (clock (n + 2)%nat)
                           "initial" id st in
      let '(dm2, bus2, out2) := initDevices clock (n + 3)%nat dm1 bus1 rest in
      (dm2, bus2, out1 ++ Log Info "Initialized device" id :: out2)
  end.

(** [NewManager] creates a new device manager on the given bus. *)
Definition NewManager `{GoLib} (deviceConfigs : list Device.t) (bus : Bus)
    (mqttServer : string -> string -> option GoError) (clock : nat -> Time)
  : GoError + Manager * Bus * list Effect :=
  match Client bus ClientDeviceManager with
  | inl err =>
      inl (ErrWrap "failed to get devicemanager eventbus client" err)
  | inr _ =>
      inr (initDevices clock 0 (mkManager ∅ ∅ true mqttServer) bus
                       deviceConfigs)
  end.

Definition setTopic (info : Device.t) : string :=
  "zigbee2mqtt/" +:+ Device.Topic info +:+ "/set".

Definition deviceNotFound (deviceID : string) : GoError :=
  ErrText ("device " +:+ deviceID +:+ " not found").

(** The text [json.Marshal] writes for a map with the single key [key];
    [value] is the text of its value. *)
Definition jsonObject (key value : string) : string :=
  "{" +:+ quoted key +:+ ":" +:+ value +:+ "}".

(** [SetPower] sets the power state of a device via MQTT. *)
Definition SetPower (dm : Manager) (deviceID : string) (on : bool)
  : option GoError * list Effect :=
  match devices dm !! deviceID with
  | None => (Some (deviceNotFound deviceID), [])
  | Some info =>
      let topic := setTopic info in
      let data := jsonObject "state" (quoted (BoolToZ2MState on)) in
      let out := [Log Info "Sending power command" deviceID;
                  MQTTPublish topic data] in
      match mqttServer dm topic data with
      | Some err =>
          (Some err,
           out ++ [PublishError deviceID
                     (ErrWrap "failed to publish power command" err)])
      | None => (None, out)
      end
  end.

(** [SetBrightness] sets the brightness of a light via MQTT. *)
Definition SetBrightness (dm : Manager) (deviceID : string) (brightness : int)
  : option GoError * list Effect :=
  match devices dm !! deviceID with
  | None => (Some (deviceNotFound deviceID), [])
  | Some info =>
      let topic := setTopic info in
      (* Convert HAP brightness (0-100) to Z2M brightness (0-254) *)
      let z2mBrightness := HAPBrightnessToZ2M brightness in
      let data := jsonObject "brightness" (pretty z2mBrightness) in
      let out := [Log Info "Sending brightness command" deviceID;
                  MQTTPublish topic data] in
      match mqttServer dm topic data with
      | Some err =>
          (Some (ErrWrap "failed to publish brightness command" err), out)
      | None => (None, out)
      end
  end.

(** [SetColor] sets the color of a light via MQTT.  [json.Marshal] refuses a
    [float64] that is an infinity or a NaN. *)
Definition SetColor `{GoLib} (dm : Manager) (deviceID : string)
    (hue saturation : float64) : option GoError * list Effect :=
  match devices dm !! deviceID with
  | None => (Some (deviceNotFound deviceID), [])
  | Some info =>
      let topic := setTopic info in
      if negb (is_finite hue && is_finite saturation)
      then (Some (ErrWrap "failed to marshal command"
                          (ErrText "json: unsupported value")), [])
      else
        let data :=
          jsonObject "color"
            ("{" +:+ quoted "hue" +:+ ":" +:+ formatFloat64 hue +:+ ","
             +:+ quoted "saturation" +:+ ":" +:+ formatFloat64 saturation
             +:+ "}") in
        let out := [Log Info "Sending color command" deviceID;
                    MQTTPublish topic data] in
        match mqttServer dm topic data with
        | Some err =>
            (Some (ErrWrap "failed to publish color command" err), out)
        | None => (None, out)
        end
  end.

(** [SetColorTemp] sets the color temperature of a light via MQTT. *)
Definition SetColorTemp (dm : Manager) (deviceID : string) (colorTemp : int)
  : option GoError * list Effect :=
  match devices dm !! deviceID with
  | None => (Some (deviceNotFound deviceID), [])
  | Some info =>
      let topic := setTopic info in
      let data := jsonObject "color_temp" (pretty colorTemp) in
      let out := [Log Info "Sending color temp command" deviceID;
                  MQTTPublish topic data] in
      match mqttServer dm topic data with
      | Some err =>
          (Some (ErrWrap "failed to publish color temp command" err), out)
      | None => (None, out)
      end
  end.

(** What [processCommand] does with the result of a setter: a failure is
    logged, nothing more. *)
Definition logFailure (msg deviceID : string)
    (r : option GoError * list Effect) : list Effect :=
  match r with
  | (Some _, out) => out ++ [Log Error msg deviceID]
  | (None, out) => out
  end.

Definition processCommand `{GoLib} (dm : Manager) (cmd : CommandEvent.t)
  : list Effect :=
  let id := CommandEvent.DeviceID cmd in
  (match CommandEvent.On cmd with
   | Some on =>
       logFailure "Failed to process power command" id (SetPower dm id on)
   | None => []
   end)
  ++ (match CommandEvent.Brightness cmd with
      | Some b =>
          logFailure "Failed to process brightness command" id
                     (SetBrightness dm id b)
      | None => []
      end)
  ++ (match CommandEvent.Hue cmd, CommandEvent.Saturation cmd with
      | Some h, Some s =>
          logFailure "Failed to process color command" id (SetColor dm id h s)
      | _, _ => []
      end)
  ++ (match CommandEvent.ColorTemp cmd with
      | Some ct =>
          logFailure "Failed to process color temp command" id
                     (SetColorTemp dm id ct)
      | None => []
      end).

(** [ProcessCommands]: the commands taken from the channel until the context
    is done, in order. *)
Definition ProcessCommands `{GoLib} (dm : Manager)
    (commands : list CommandEvent.t) : list Effect :=
  concat (map (processCommand dm) commands).

(** One [case] of the [switch field] in [ProcessStateEvents]. *)
Definition mergeField (candidate state : State.t) (field : string) : State.t :=
  if String.eqb field "On" then State.set_On (State.On candidate) state
  else if String.eqb field "Brightness"
  then State.set_Brightness (State.Brightness candidate) state
  else if String.eqb field "Hue" then State.set_Hue (State.Hue candidate) state
  else if String.eqb field "Saturation"
  then State.set_Saturation (State.Saturation candidate) state
  else if String.eqb field "ColorTemp"
  then State.set_ColorTemp (State.ColorTemp candidate) state
  else if String.eqb field "Temperature"
  then State.set_Temperature (State.Temperature candidate) state
  else if String.eqb field "Humidity"
  then State.set_Humidity (State.Humidity candidate) state
  else if String.eqb field "Battery"
  then State.set_Battery (State.Battery candidate) state
  else if String.eqb field "Occupancy"
  then State.set_Occupancy (State.Occupancy candidate) state
  else if String.eqb field "Illuminance"
  then State.set_Illuminance (State.Illuminance candidate) state
  else if String.eqb field "Pressure"
  then State.set_Pressure (State.Pressure candidate) state
  else if String.eqb field "Contact"
  then State.set_Contact (State.Contact candidate) state
  else if String.eqb field "WaterLeak"
  then State.set_WaterLeak (State.WaterLeak candidate) state
  else if String.eqb field "Smoke"
  then State.set_Smoke (State.Smoke candidate) state
  else if String.eqb field "Tamper"
  then State.set_Tamper (State.Tamper candidate) state
  else if String.eqb field "FanSpeed"
  then State.set_FanSpeed (State.FanSpeed candidate) state
  else if String.eqb field "LinkQuality"
  then State.set_LinkQuality (State.LinkQuality candidate) state
  else if String.eqb field "LastSeen"
  then State.set_LastSeen (State.LastSeen candidate) state
  else if String.eqb field "LastUpdated"
  then State.set_LastUpdated (State.LastUpdated candidate) state
  else state.

(** The selective update of the stored state by one event. *)
Definition mergeState (event : StateChangedEvent.t) (state : State.t) : State.t :=
  let fields := StateChangedEvent.UpdatedFields event in
  if (0 <? length fields)%nat
  then fold_left (mergeField (StateChangedEvent.State event)) fields state
  else state.

(** One iteration of the loop of [ProcessStateEvents], for the event taken
    from the subscription. *)
Definition processStateEvent `{GoLib} (dm : Manager) (bus : Bus)
    (sinceAt stampAt : Time) (event : StateChangedEvent.t)
  : Manager * Bus * list Effect :=
  let id := StateChangedEvent.DeviceID event in
  match states dm !! id with
  | None =>
      (dm, bus, [Log Warn "Received state event for unknown device" id])
  | Some state =>
      let state := mergeState event state in
      let dm := mkManager (devices dm) (<[ id := state ]> (states dm))
                          (eventBus dm) (mqttServer dm) in
      let stateCopy := state in
      let '(bus, out) :=
        publishStateUpdate dm bus sinceAt stampAt "eventbus" id stateCopy in
      (dm, bus, Log Debug "Merged state from eventbus" id :: out)
  end.

(** [ProcessStateEvents]: the events taken from the subscription until the
    context is done, each with the two clock readings of its iteration. *)
Fixpoint ProcessStateEvents `{GoLib} (dm : Manager) (bus : Bus)
    (events : list (StateChangedEvent.t * Time * Time))
  : Manager * Bus * list Effect :=
  match events with
  | [] => (dm, bus, [])
  | (event, sinceAt, stampAt) :: rest =>
      let '(dm1, bus1, out1) := processStateEvent dm bus sinceAt stampAt event in
      let '(dm2, bus2, out2) := ProcessStateEvents dm1 bus1 rest in
      (dm2, bus2, out1 ++ out2)
  end.

(** ** The bus-ingestion hook *)

(** A decoded JSON value, as [json.Unmarshal] stores it in an
    [interface{}]. *)
Inductive any :=
| AnyNil
| AnyBool (b : bool)
| AnyFloat64 (f : float64)
| AnyString (s : string)
| AnySlice (l : list any)
| AnyMap (m : gmap string any).

(** The type assertions [v.(float64)], [v.(bool)], [v.(string)] and
    [v.(map[string]interface{})] on the value found under a key, if any. *)
Definition asFloat64 (v : option any) : option float64 :=
  match v with Some (AnyFloat64 f) => Some f | _ => None end.
Definition asBool (v : option any) : option bool :=
  match v with Some (AnyBool b) => Some b | _ => None end.
Definition asString (v : option any) : option string :=
  match v with Some (AnyString s) => Some s | _ => None end.
Definition asMap (v : option any) : option (gmap string any) :=
  match v with Some (AnyMap m) => Some m | _ => None end.

(** The locals [state] and [fields] of [parseZ2MMessage], with the log lines
    written so far. *)
Record Parsed := mkParsed {
  parsed_state : State.t;
  parsed_fields : list string;
  parsed_out : list Effect
}.

(** [if v, ok := ...; ok { state.F = ...v...; fields = append(fields, name) }] *)
Definition parseField {A} (v : option A) (set : A -> State.t -> State.t)
    (name : string) (acc : Parsed) : Parsed :=
  match v with
  | Some x => mkParsed (set x (parsed_state acc)) (parsed_fields acc ++ [name])
                       (parsed_out acc)
  | None => acc
  end.

(** The [switch fanMode] of [parseZ2MMessage]. *)
Definition fanModeSpeed (fanMode : string) : int :=
  if String.eqb fanMode "off" then 0
  else if String.eqb fanMode "low" then 33
  else if String.eqb fanMode "medium" then 66
  else if String.eqb fanMode "high" then 100
  else if String.eqb fanMode "auto" then 50 (* Default auto to medium *)
  else 50.

#[local] Notation "x |> f" := (f x) (at level 71, left associativity, only parsing).

Definition parseZ2MMessage (now : Time) (device : Device.t)
    (msg : gmap string any) : Parsed :=
  let id := Device.ID device in
  mkParsed (State.init id (Device.Name device) now now) [] []
  (* Parse link quality *)
  |> parseField (asFloat64 (msg !! "linkquality"))
       (fun lq => State.set_LinkQuality (int_of_float64 lq)) "LinkQuality"
  (* Parse sensor values *)
  |> parseField (asFloat64 (msg !! "temperature"))
       (fun temp => State.set_Temperature (Some temp)) "Temperature"
  |> parseField (asFloat64 (msg !! "humidity"))
       (fun humidity => State.set_Humidity (Some humidity)) "Humidity"
  |> parseField (asFloat64 (msg !! "battery"))
       (fun battery => State.set_Battery (Some (int_of_float64 battery)))
       "Battery"
  |> parseField (asBool (msg !! "occupancy"))
       (fun occupancy => State.set_Occupancy (Some occupancy)) "Occupancy"
  |> parseField (asFloat64 (msg !! "illuminance"))
       (fun i => State.set_Illuminance (Some (int_of_float64 i))) "Illuminance"
  (* Also check illuminance_lux variant *)
  |> parseField (asFloat64 (msg !! "illuminance_lux"))
       (fun i => State.set_Illuminance (Some (int_of_float64 i))) "Illuminance"
  |> parseField (asFloat64 (msg !! "pressure"))
       (fun pressure => State.set_Pressure (Some pressure)) "Pressure"
  (* Z2M: true = closed, false = open *)
  |> parseField (asBool (msg !! "contact"))
       (fun contact => State.set_Contact (Some contact)) "Contact"
  |> parseField (asBool (msg !! "water_leak"))
       (fun waterLeak => State.set_WaterLeak (Some waterLeak)) "WaterLeak"
  |> parseField (asBool (msg !! "smoke"))
       (fun smoke => State.set_Smoke (Some smoke)) "Smoke"
  |> parseField (asBool (msg !! "tamper"))
       (fun tamper => State.set_Tamper (Some tamper)) "Tamper"
  (* Parse light values *)
  |> (fun acc =>
        match asString (msg !! "state") with
        | Some stateStr =>
            mkParsed (State.set_On (Some (Z2MStateToBool stateStr))
                                   (parsed_state acc))
                     (parsed_fields acc ++ ["On"])
                     (parsed_out acc
                      ++ [Log Info "Device state updated from MQTT" id])
        | None => acc
        end)
  |> parseField (asFloat64 (msg !! "brightness"))
       (fun brightness => State.set_Brightness (Some (int_of_float64 brightness)))
       "Brightness"
  |> parseField (asFloat64 (msg !! "color_temp"))
       (fun colorTemp => State.set_ColorTemp (Some (int_of_float64 colorTemp)))
       "ColorTemp"
  (* Parse color object *)
  |> (fun acc =>
        match asMap (msg !! "color") with
        | Some color =>
            acc
            |> parseField (asFloat64 (color !! "hue"))
                 (fun hue => State.set_Hue (Some hue)) "Hue"
            |> parseField (asFloat64 (color !! "saturation"))
                 (fun sat => State.set_Saturation (Some sat)) "Saturation"
        | None => acc
        end)
  (* Parse fan values *)
  |> parseField (asString (msg !! "fan_state"))
       (fun fanState => State.set_On (Some (Z2MStateToBool fanState))) "On"
  |> parseField (asFloat64 (msg !! "fan_speed"))
       (fun fanSpeed => State.set_FanSpeed (Some (int_of_float64 fanSpeed)))
       "FanSpeed"
  (* Fan mode can indicate speed levels *)
  |> parseField (asString (msg !! "fan_mode"))
       (fun fanMode => State.set_FanSpeed (Some (fanModeSpeed fanMode)))
       "FanSpeed"
  (* Always add connectivity fields *)
  |> (fun acc =>
        mkParsed (parsed_state acc)
                 (parsed_fields acc ++ ["LastSeen"; "LastUpdated"])
                 (parsed_out acc)).

(** [strings.HasSuffix] *)
Definition hasSuffix (s suffix : string) : bool :=
  (String.length suffix <=? String.length s)%nat
  && String.eqb (String.substring (String.length s - String.length suffix)
                                  (String.length suffix) s)
                suffix.

(** [strings.TrimPrefix] *)
Definition trimPrefix (s pre : string) : string :=
  if String.prefix pre s
  then String.substring (String.length pre)
                        (String.length s - String.length pre) s
  else s.

(** What [Manager.DeviceByTopic] may return: it ranges over a Go map, so with
    several devices on one topic any of them can be the answer. *)
Definition DeviceByTopic (dm : Manager) (topic : string)
    (result : option Device.t) : Prop :=
  match result with
  | Some device =>
      exists id, devices dm !! id = Some device /\ Device.Topic device = topic
  | None =>
      forall id device,
        devices dm !! id = Some device -> Device.Topic device <> topic
  end.

(** [OnPublish], called for a message received from a client.  [found] is the
    answer of [DeviceByTopic] for the device topic, [decoded] the outcome of
    [json.Unmarshal(payload, &msg)] ([None] when it fails) and [now] the clock
    reading of [parseZ2MMessage].  The packet is returned as it came, with no
    error, on every path. *)
Definition OnPublish (now : Time) (topic : string)
    (decoded : option (gmap string any)) (found : option Device.t)
  : list Effect :=
  let received := Log Debug "MQTT message received" topic in
  (* Skip processing for non-zigbee2mqtt topics *)
  if negb (String.prefix "zigbee2mqtt/" topic) then [received]
  (* Skip bridge topics *)
  else if String.prefix "zigbee2mqtt/bridge/" topic then [received]
  (* Skip set command topics (these are outgoing commands) *)
  else if hasSuffix topic "/set" || hasSuffix topic "/get" then [received]
  else
    let deviceTopic := trimPrefix topic "zigbee2mqtt/" in
    match found with
    | None =>
        [received; Log Debug "Received message for unknown device" deviceTopic]
    | Some device =>
        match decoded with
        | None => [received; Log Debug "Failed to parse MQTT payload" topic]
        | Some msg =>
            let parsed := parseZ2MMessage now device msg in
            received :: parsed_out parsed
            ++ (if (0 <? length (parsed_fields parsed))%nat
                then [Log Debug "Publishing state change" (Device.ID device);
                      PublishStateChanged
                        (StateChangedEvent.mk (Device.ID device)
                                              (parsed_state parsed)
                                              (parsed_fields parsed))]
                else [])
        end
    end.

(** ** The accessory adapter *)

(** [AccessoryInfo]: each flag says whether the pointer to that service or
    characteristic of the accessory is non-nil. *)
Module AccessoryInfo.
Record t := mk {
  DeviceType_ : DeviceType;
  DeviceID : string;
  (* Sensors *)
  Temperature : bool;
  Humidity : bool;
  Occupancy : bool;
  Battery : bool;
  Contact : bool;
  Leak : bool;
  Smoke : bool;
  (* Lights *)
  Lightbulb : bool;
  Brightness : bool;
  Hue : bool;
  Saturation : bool;
  ColorTemperature : bool;
  (* Outlets/Switches *)
  Outlet : bool;
  (* Fans *)
  Fan : bool;
  FanRotation : bool
}.

(** [&AccessoryInfo{DeviceType: ty, DeviceID: id}] *)
Definition init (ty : DeviceType) (id : string) : t :=
  mk ty id false false false false false false false false
     false false false false false false false.

(** Assignments [accInfo.F = service] of a freshly created service. *)
Definition set_Temperature (s : t) : t :=
  let 'mk ty id _ hu oc ba co le sm lb br hue sa ct ou fa fr := s in
  mk ty id true hu oc ba co le sm lb br hue sa ct ou fa fr.
Definition set_Humidity (s : t) : t :=
  let 'mk ty id te _ oc ba co le sm lb br hue sa ct ou fa fr := s in
  mk ty id te true oc ba co le sm lb br hue sa ct ou fa fr.
Definition set_Occupancy (s : t) : t :=
  let 'mk ty id te hu _ ba co le sm lb br hue sa ct ou fa fr := s in
  mk ty id te hu true ba co le sm lb br hue sa ct ou fa fr.
Definition set_Battery (s : t) : t :=
  let 'mk ty id te hu oc _ co le sm lb br hue sa ct ou fa fr := s in
  mk ty id te hu oc true co le sm lb br hue sa ct ou fa fr.
Definition set_Contact (s : t) : t :=
  let 'mk ty id te hu oc ba _ le sm lb br hue sa ct ou fa fr := s in
  mk ty id te hu oc ba true le sm lb br hue sa ct ou fa fr.
Definition set_Leak (s : t) : t :=
  let 'mk ty id te hu oc ba co _ sm lb br hue sa ct ou fa fr := s in
  mk ty id te hu oc ba co true sm lb br hue sa ct ou fa fr.
Definition set_Smoke (s : t) : t :=
  let 'mk ty id te hu oc ba co le _ lb br hue sa ct ou fa fr := s in
  mk ty id te hu oc ba co le true lb br hue sa ct ou fa fr.
Definition set_Lightbulb (s : t) : t :=
  let 'mk ty id te hu oc ba co le sm _ br hue sa ct ou fa fr := s in
  mk ty id te hu oc ba co le sm true br hue sa ct ou fa fr.
Definition set_Brightness (s : t) : t :=
  let 'mk ty id te hu oc ba co le sm lb _ hue sa ct ou fa fr := s in
  mk ty id te hu oc ba co le sm lb true hue sa ct ou fa fr.
Definition set_Hue (s : t) : t :=
  let 'mk ty id te hu oc ba co le sm lb br _ sa ct ou fa fr := s in
  mk ty id te hu oc ba co le sm lb br true sa ct ou fa fr.
Definition set_Saturation (s : t) : t :=
  let 'mk ty id te hu oc ba co le sm lb br hue _ ct ou fa fr := s in
  mk ty id te hu oc ba co le sm lb br hue true ct ou fa fr.
Definition set_ColorTemperature (s : t) : t :=
  let 'mk ty id te hu oc ba co le sm lb br hue sa _ ou fa fr := s in
  mk ty id te hu oc ba co le sm lb br hue sa true ou fa fr.
Definition set_Outlet (s : t) : t :=
  let 'mk ty id te hu oc ba co le sm lb br hue sa ct _ fa fr := s in
  mk ty id te hu oc ba co le sm lb br hue sa ct true fa fr.
Definition set_Fan (s : t) : t :=
  let 'mk ty id te hu oc ba co le sm lb br hue sa ct ou _ fr := s in
  mk ty id te hu oc ba co le sm lb br hue sa ct ou true fr.
Definition set_FanRotation (s : t) : t :=
  let 'mk ty id te hu oc ba co le sm lb br hue sa ct ou fa _ := s in
  mk ty id te hu oc ba co le sm lb br hue sa ct ou fa true.
End AccessoryInfo.

Definition addIf (enabled : bool) (set : AccessoryInfo.t -> AccessoryInfo.t)
    (accInfo : AccessoryInfo.t) : AccessoryInfo.t :=
  if enabled then set accInfo else accInfo.

Definition createClimateSensor (device : Device.t) (accInfo : AccessoryInfo.t)
  : AccessoryInfo.t :=
  accInfo
  |> addIf (DeviceFeatures.Temperature (Device.Features device))
           AccessoryInfo.set_Temperature
  |> addIf (DeviceFeatures.Humidity (Device.Features device))
           AccessoryInfo.set_Humidity
  |> addIf (DeviceFeatures.Battery (Device.Features device))
           AccessoryInfo.set_Battery.

Definition createOccupancySensor (device : Device.t) (accInfo : AccessoryInfo.t)
  : AccessoryInfo.t :=
  accInfo
  |> AccessoryInfo.set_Occupancy
  |> addIf (DeviceFeatures.Battery (Device.Features device))
           AccessoryInfo.set_Battery.

Definition createContactSensor (device : Device.t) (accInfo : AccessoryInfo.t)
  : AccessoryInfo.t :=
  accInfo
  |> AccessoryInfo.set_Contact
  |> addIf (DeviceFeatures.Battery (Device.Features device))
           AccessoryInfo.set_Battery.

Definition createLeakSensor (device : Device.t) (accInfo : AccessoryInfo.t)
  : AccessoryInfo.t :=
  accInfo
  |> AccessoryInfo.set_Leak
  |> addIf (DeviceFeatures.Battery (Device.Features device))
           AccessoryInfo.set_Battery.

Definition createSmokeSensor (device : Device.t) (accInfo : AccessoryInfo.t)
  : AccessoryInfo.t :=
  accInfo
  |> AccessoryInfo.set_Smoke
  |> addIf (DeviceFeatures.Battery (Device.Features device))
           AccessoryInfo.set_Battery.

Definition createFan (device : Device.t) (accInfo : AccessoryInfo.t)
  : AccessoryInfo.t :=
  accInfo
  |> AccessoryInfo.set_Fan
  |> addIf (DeviceFeatures.Speed (Device.Features device))
           AccessoryInfo.set_FanRotation.

Definition createLightbulb (device : Device.t) (accInfo : AccessoryInfo.t)
  : AccessoryInfo.t :=
  accInfo
  |> AccessoryInfo.set_Lightbulb
  |> addIf (DeviceFeatures.Brightness (Device.Features device))
           AccessoryInfo.set_Brightness
  |> addIf (DeviceFeatures.Color (Device.Features device))
           (fun a => AccessoryInfo.set_Saturation (AccessoryInfo.set_Hue a))
  |> addIf (DeviceFeatures.ColorTemperature (Device.Features device))
           AccessoryInfo.set_ColorTemperature.

Definition createOutlet (device : Device.t) (accInfo : AccessoryInfo.t)
  : AccessoryInfo.t :=
  AccessoryInfo.set_Outlet accInfo.

(** [createAccessory]: the services of the accessory of a device, by its
    type; [None] is the nil returned for an unknown type. *)
Definition createAccessory (device : Device.t) : option AccessoryInfo.t :=
  let ty := Device.Type_ device in
  let accInfo := AccessoryInfo.init ty (Device.ID device) in
  if String.eqb ty DeviceTypeClimateSensor
  then Some (createClimateSensor device accInfo)
  else if String.eqb ty DeviceTypeOccupancySensor
  then Some (createOccupancySensor device accInfo)
  else if String.eqb ty DeviceTypeContactSensor
  then Some (createContactSensor device accInfo)
  else if String.eqb ty DeviceTypeLeakSensor
  then Some (createLeakSensor device accInfo)
  else if String.eqb ty DeviceTypeSmokeSensor
  then Some (createSmokeSensor device accInfo)
  else if String.eqb ty DeviceTypeLightbulb
  then Some (createLightbulb device accInfo)
  else if String.eqb ty DeviceTypeOutlet || String.eqb ty DeviceTypeSwitch
  then Some (createOutlet device accInfo)
  else if String.eqb ty DeviceTypeFan
  then Some (createFan device accInfo)
  else None.

Record HAPManager := mkHAPManager {
  accessories : gmap string AccessoryInfo.t;
  accessoryOrder : list string;
  (* Stats *)
  incomingCommands : Z;                (* atomic.Uint64 *)
  outgoingUpdates : Z;                 (* atomic.Uint64 *)
  lastActivity : Z                     (* atomic.Int64 *)
}.

(** [atomic.Uint64.Add(1)] *)
Definition uint64_incr (n : Z) : Z := (n + 1) mod 2 ^ 64.

(** The loop of [NewHAPManager] that creates an accessory for each device. *)
Fixpoint createAccessories (hm : HAPManager) (deviceConfigs : list Device.t)
  : HAPManager * list Effect :=
  match deviceConfigs with
  | [] => (hm, [])
  | device :: rest =>
      (* Skip devices that are not enabled for HomeKit *)
      match Device.HomeKit device with
      | Some false =>
          let '(hm', out) := createAccessories hm rest in
          (hm', Log Info "Skipping device for HomeKit" (Device.ID device) :: out)
      | _ =>
          match createAccessory device with
          | Some accInfo =>
              let hm1 :=
                mkHAPManager (<[ Device.ID device := accInfo ]> (accessories hm))
                             (accessoryOrder hm ++ [Device.ID device])
                             (incomingCommands hm) (outgoingUpdates hm)
                             (lastActivity hm) in
              let '(hm', out) := createAccessories hm1 rest in
              (hm', Log Info "Created HomeKit accessory" (Device.ID device)
                    :: out)
          | None =>
              let '(hm', out) := createAccessories hm rest in
              (hm', Log Warn "Unknown device type" (Device.ID device) :: out)
          end
      end
  end.

(** [NewHAPManager] creates a HAP manager with accessories for all devices;
    [None] is the panic on a bus without the [hap] client. *)
Definition NewHAPManager (deviceConfigs : list Device.t) (bus : Bus)
  : option (HAPManager * list Effect) :=
  match Client bus ClientHAP with
  | inl _ => None
  | inr _ => Some (createAccessories (mkHAPManager ∅ [] 0 0 0) deviceConfigs)
  end.

(** [if accInfo.S != nil && event.F != nil { ... SetValue ... }] *)
Definition whenBoth {A} (present : bool) (v : option A)
    (calls : A -> list Effect) : list Effect :=
  if present then match v with Some x => calls x | None => [] end else [].

(** [UpdateState] updates the HomeKit state for a device; [nowUnix] is
    [time.Now().Unix()]. *)
Definition UpdateState (hm : HAPManager) (nowUnix : Z)
    (event : StateUpdateEvent.t) : HAPManager * list Effect :=
  let id := StateUpdateEvent.DeviceID event in
  match accessories hm !! id with
  | None => (hm, [Log Debug "Accessory not found for device" id])
  | Some accInfo =>
      let out :=
        (* Update sensor values *)
        whenBoth (AccessoryInfo.Temperature accInfo)
          (StateUpdateEvent.Temperature event)
          (fun t => [SetValue id CurrentTemperature (FloatValue t)])
        ++ whenBoth (AccessoryInfo.Humidity accInfo)
             (StateUpdateEvent.Humidity event)
             (fun h => [SetValue id CurrentRelativeHumidity (FloatValue h)])
        ++ whenBoth (AccessoryInfo.Occupancy accInfo)
             (StateUpdateEvent.Occupancy event)
             (fun occupancy =>
                let val := if occupancy then 1 else 0 in
                [SetValue id OccupancyDetected (IntValue val)])
        ++ whenBoth (AccessoryInfo.Battery accInfo)
             (StateUpdateEvent.Battery event)
             (fun battery =>
                (* Set low battery status *)
                let lowBattery := if battery <? 20 then 1 else 0 in
                [SetValue id BatteryLevel (IntValue battery);
                 SetValue id StatusLowBattery (IntValue lowBattery)])
        (* Update contact sensor (door/window)
           Z2M: true = closed, false = open
           HAP: 0 = DETECTED (closed), 1 = NOT_DETECTED (open) *)
        ++ whenBoth (AccessoryInfo.Contact accInfo)
             (StateUpdateEvent.Contact event)
             (fun contact =>
                let val := if contact then 0 (* Closed (detected) *)
                           else 1 (* Open (not detected) *) in
                [SetValue id ContactSensorState (IntValue val)])
        (* HAP: 0 = NOT_DETECTED, 1 = DETECTED *)
        ++ whenBoth (AccessoryInfo.Leak accInfo)
             (StateUpdateEvent.WaterLeak event)
             (fun waterLeak =>
                let val := if waterLeak then 1 else 0 in
                [SetValue id LeakDetected (IntValue val)])
        ++ whenBoth (AccessoryInfo.Smoke accInfo)
             (StateUpdateEvent.Smoke event)
             (fun smoke =>
                let val := if smoke then 1 else 0 in
                [SetValue id SmokeDetected (IntValue val)])
        (* Update light values *)
        ++ whenBoth (AccessoryInfo.Lightbulb accInfo)
             (StateUpdateEvent.On event)
             (fun on => [SetValue id LightbulbOn (BoolValue on)])
        (* Update outlet values *)
        ++ whenBoth (AccessoryInfo.Outlet accInfo)
             (StateUpdateEvent.On event)
             (fun on => [SetValue id OutletOn (BoolValue on)])
        ++ whenBoth (AccessoryInfo.Brightness accInfo)
             (StateUpdateEvent.Brightness event)
             (fun b => [SetValue id Brightness (IntValue b)])
        ++ whenBoth (AccessoryInfo.Hue accInfo)
             (StateUpdateEvent.Hue event)
             (fun h => [SetValue id Hue (FloatValue h)])
        ++ whenBoth (AccessoryInfo.Saturation accInfo)
             (StateUpdateEvent.Saturation event)
             (fun s => [SetValue id Saturation (FloatValue s)])
        ++ whenBoth (AccessoryInfo.ColorTemperature accInfo)
             (StateUpdateEvent.ColorTemp event)
             (fun ct =>
                [SetValue id ColorTemperature (IntValue (ClampColorTemp ct))])
        (* Update fan values *)
        ++ whenBoth (AccessoryInfo.Fan accInfo)
             (StateUpdateEvent.On event)
             (fun on => [SetValue id FanOn (BoolValue on)])
        ++ whenBoth (AccessoryInfo.FanRotation accInfo)
             (StateUpdateEvent.FanSpeed event)
             (fun speed =>
                [SetValue id RotationSpeed (FloatValue (float64_of_int speed))])
      in
      (mkHAPManager (accessories hm) (accessoryOrder hm) (incomingCommands hm)
                    (uint64_incr (outgoingUpdates hm)) nowUnix,
       out ++ [Log Debug "Updated HomeKit state" id])
  end.

(** The contact-sensor writes among the calls of a trace. *)
Definition contactWrites (out : list Effect) : list CharValue :=
  omap (fun e => match e with
                 | SetValue _ ContactSensorState v => Some v
                 | _ => None
                 end) out.

(** The events a trace hands to the subscribers of the fabric. *)
Definition delivered (out : list Effect) : list StateUpdateEvent.t :=
  omap (fun e => match e with
                 | Deliver _ ev => Some ev
                 | _ => None
                 end) out.

(** The state changes a trace publishes. *)
Definition stateChanges (out : list Effect) : list StateChangedEvent.t :=
  omap (fun e => match e with
                 | PublishStateChanged ev => Some ev
                 | _ => None
                 end) out.

(** The bus publishes of a trace, as (topic, payload). *)
Definition mqttPublishes (out : list Effect) : list (string * string) :=
  omap (fun e => match e with
                 | MQTTPublish topic data => Some (topic, data)
                 | _ => None
                 end) out.

(** ** Vocabulary of the properties *)

(** The fields of [State], with the name a field list uses for each. *)
Inductive Field :=
| FID | FName | FTemperature | FHumidity | FBattery | FOccupancy
| FIlluminance | FPressure | FContact | FWaterLeak | FSmoke | FTamper | FOn
| FBrightness | FHue | FSaturation | FColorTemp | FFanSpeed | FFanDirection
| FFanSwing | FLinkQuality | FLastUpdated | FLastSeen.

Definition fieldName (f : Field) : string :=
  match f with
  | FID => "ID" | FName => "Name" | FTemperature => "Temperature"
  | FHumidity => "Humidity" | FBattery => "Battery"
  | FOccupancy => "Occupancy" | FIlluminance => "Illuminance"
  | FPressure => "Pressure" | FContact => "Contact"
  | FWaterLeak => "WaterLeak" | FSmoke => "Smoke" | FTamper => "Tamper"
  | FOn => "On" | FBrightness => "Brightness" | FHue => "Hue"
  | FSaturation => "Saturation" | FColorTemp => "ColorTemp"
  | FFanSpeed => "FanSpeed" | FFanDirection => "FanDirection"
  | FFanSwing => "FanSwing" | FLinkQuality => "LinkQuality"
  | FLastUpdated => "LastUpdated" | FLastSeen => "LastSeen"
  end.

Inductive FieldVal :=
| StringVal (s : string)
| FloatPtr (v : option float64)
| IntPtr (v : option int)
| BoolPtr (v : option bool)
| IntVal (v : int)
| TimeVal (v : Time).

(** The content of a field of a state. *)
Definition readField (f : Field) (s : State.t) : FieldVal :=
  match f with
  | FID => StringVal (State.ID s)
  | FName => StringVal (State.Name s)
  | FTemperature => FloatPtr (State.Temperature s)
  | FHumidity => FloatPtr (State.Humidity s)
  | FBattery => IntPtr (State.Battery s)
  | FOccupancy => BoolPtr (State.Occupancy s)
  | FIlluminance => IntPtr (State.Illuminance s)
  | FPressure => FloatPtr (State.Pressure s)
  | FContact => BoolPtr (State.Contact s)
  | FWaterLeak => BoolPtr (State.WaterLeak s)
  | FSmoke => BoolPtr (State.Smoke s)
  | FTamper => BoolPtr (State.Tamper s)
  | FOn => BoolPtr (State.On s)
  | FBrightness => IntPtr (State.Brightness s)
  | FHue => FloatPtr (State.Hue s)
  | FSaturation => FloatPtr (State.Saturation s)
  | FColorTemp => IntPtr (State.ColorTemp s)
  | FFanSpeed => IntPtr (State.FanSpeed s)
  | FFanDirection => BoolPtr (State.FanDirection s)
  | FFanSwing => BoolPtr (State.FanSwing s)
  | FLinkQuality => IntVal (State.LinkQuality s)
  | FLastUpdated => TimeVal (State.LastUpdated s)
  | FLastSeen => TimeVal (State.LastSeen s)
  end.

(** The fields the merge has a [case] for. *)
Definition mergeable (f : Field) : bool :=
  match f with
  | FID | FName | FFanDirection | FFanSwing => false
  | _ => true
  end.

(** The floating-point path the two brightness conversions take on the open
    interval between their bounds. *)
Definition z2mFloatPath (z : Z) : Z :=
  int_of_float64 (float64_of_int z * 100 / 254)%float.
Definition hapFloatPath (z : Z) : Z :=
  int_of_float64 (float64_of_int z * 254 / 100)%float.


(** The manager holds a state for exactly the devices of its registry. *)
Definition consistent (dm : Manager) : Prop :=
  forall id, devices dm !! id = None <-> states dm !! id = None.

(** Two events agree on every field but [Timestamp] and [Source]. *)
Definition sameLogicalState (a b : StateUpdateEvent.t) : Prop :=
  StateUpdateEvent.DeviceID a = StateUpdateEvent.DeviceID b
  /\ StateUpdateEvent.Name a = StateUpdateEvent.Name b
  /\ StateUpdateEvent.Temperature a = StateUpdateEvent.Temperature b
  /\ StateUpdateEvent.Humidity a = StateUpdateEvent.Humidity b
  /\ StateUpdateEvent.Battery a = StateUpdateEvent.Battery b
  /\ StateUpdateEvent.Occupancy a = StateUpdateEvent.Occupancy b
  /\ StateUpdateEvent.Illuminance a = StateUpdateEvent.Illuminance b
  /\ StateUpdateEvent.Pressure a = StateUpdateEvent.Pressure b
  /\ StateUpdateEvent.Contact a = StateUpdateEvent.Contact b
  /\ StateUpdateEvent.WaterLeak a = StateUpdateEvent.WaterLeak b
  /\ StateUpdateEvent.Smoke a = StateUpdateEvent.Smoke b
  /\ StateUpdateEvent.Tamper a = StateUpdateEvent.Tamper b
  /\ StateUpdateEvent.On a = StateUpdateEvent.On b
  /\ StateUpdateEvent.Brightness a = StateUpdateEvent.Brightness b
  /\ StateUpdateEvent.Hue a = StateUpdateEvent.Hue b
  /\ StateUpdateEvent.Saturation a = StateUpdateEvent.Saturation b
  /\ StateUpdateEvent.ColorTemp a = StateUpdateEvent.ColorTemp b
  /\ StateUpdateEvent.FanSpeed a = StateUpdateEvent.FanSpeed b
  /\ StateUpdateEvent.LinkQuality a = StateUpdateEvent.LinkQuality b
  /\ StateUpdateEvent.LastSeen a = StateUpdateEvent.LastSeen b
  /\ StateUpdateEvent.LastUpdated a = StateUpdateEvent.LastUpdated b
  /\ StateUpdateEvent.ConnectionState a = StateUpdateEvent.ConnectionState b
  /\ StateUpdateEvent.ConnectionNote a = StateUpdateEvent.ConnectionNote b.

(** Two events agree on every field that is not a timestamp: [Timestamp],
    [LastSeen] and [LastUpdated] are left out of the comparison. *)
Definition sameButTimestamps (a b : StateUpdateEvent.t) : Prop :=
  StateUpdateEvent.Source a = StateUpdateEvent.Source b
  /\ StateUpdateEvent.DeviceID a = StateUpdateEvent.DeviceID b
  /\ StateUpdateEvent.Name a = StateUpdateEvent.Name b
  /\ StateUpdateEvent.Temperature a = StateUpdateEvent.Temperature b
  /\ StateUpdateEvent.Humidity a = StateUpdateEvent.Humidity b
  /\ StateUpdateEvent.Battery a = StateUpdateEvent.Battery b
  /\ StateUpdateEvent.Occupancy a = StateUpdateEvent.Occupancy b
  /\ StateUpdateEvent.Illuminance a = StateUpdateEvent.Illuminance b
  /\ StateUpdateEvent.Pressure a = StateUpdateEvent.Pressure b
  /\ StateUpdateEvent.Contact a = StateUpdateEvent.Contact b
  /\ StateUpdateEvent.WaterLeak a = StateUpdateEvent.WaterLeak b
  /\ StateUpdateEvent.Smoke a = StateUpdateEvent.Smoke b
  /\ StateUpdateEvent.Tamper a = StateUpdateEvent.Tamper b
  /\ StateUpdateEvent.On a = StateUpdateEvent.On b
  /\ StateUpdateEvent.Brightness a = StateUpdateEvent.Brightness b
  /\ StateUpdateEvent.Hue a = StateUpdateEvent.Hue b
  /\ StateUpdateEvent.Saturation a = StateUpdateEvent.Saturation b
  /\ StateUpdateEvent.ColorTemp a = StateUpdateEvent.ColorTemp b
  /\ StateUpdateEvent.FanSpeed a = StateUpdateEvent.FanSpeed b
  /\ StateUpdateEvent.LinkQuality a = StateUpdateEvent.LinkQuality b
  /\ StateUpdateEvent.ConnectionState a = StateUpdateEvent.ConnectionState b
  /\ StateUpdateEvent.ConnectionNote a = StateUpdateEvent.ConnectionNote b.

(** A [float64] behind a pointer, if any, is a number (no infinity, no NaN),
    as every number decoded from JSON is. *)
Definition finitePtr (v : option float64) : bool :=
  match v with
  | Some f => is_finite f
  | None => true
  end.

Definition finiteValues (e : StateUpdateEvent.t) : Prop :=
  finitePtr (StateUpdateEvent.Temperature e) = true
  /\ finitePtr (StateUpdateEvent.Humidity e) = true
  /\ finitePtr (StateUpdateEvent.Pressure e) = true
  /\ finitePtr (StateUpdateEvent.Hue e) = true
  /\ finitePtr (StateUpdateEvent.Saturation e) = true.

(** An instance of [GoLib] for the examples: a duration is written as its
    whole seconds, a float as its truncation. *)
Definition sampleLib : GoLib :=
  {| roundedString := fun d => pretty (d / Second) +:+ "s";
     formatFloat64 := fun f => pretty (int_of_float64 f) |}.

(** ** Sample data *)

Definition sampleSensor : Device.t :=
  Device.mk "sensor" "Living room" "living-room" DeviceTypeClimateSensor
            DeviceFeatures.none None None.

Definition sampleDoor : Device.t :=
  Device.mk "door" "Front door" "front-door" DeviceTypeContactSensor
            DeviceFeatures.none None None.

(** The stored state of the sensor: temperature 20.0, last updated at 100. *)
Definition sampleState : State.t :=
  State.set_Temperature (Some 20%float)
    (State.init "sensor" "Living room" 100 100).

Definition sampleManager : Manager :=
  mkManager {[ "sensor" := sampleSensor ]} {[ "sensor" := sampleState ]}
            true (fun _ _ => None).

(** A change naming only [Humidity], whose candidate state also carries a
    temperature of 99.0. *)
Definition sampleChange : StateChangedEvent.t :=
  StateChangedEvent.mk "sensor"
    (State.set_Humidity (Some 55%float)
       (State.set_Temperature (Some 99%float)
          (State.init "sensor" "Living room" 450 450)))
    ["Humidity"].

(** A change for a device that is not configured. *)
Definition strayChange : StateChangedEvent.t :=
  StateChangedEvent.mk "ghost" (State.init "ghost" "Ghost" 450 450)
                       ["LastSeen"; "LastUpdated"].

(** A state update of the sensor, stamped [stamp], last seen at [seen]. *)
Definition sampleUpdate (stamp seen : Time) : StateUpdateEvent.t :=
  {| StateUpdateEvent.Timestamp := stamp;
     StateUpdateEvent.Source := "eventbus";
     StateUpdateEvent.DeviceID := "sensor";
     StateUpdateEvent.Name := "Living room";
     StateUpdateEvent.Temperature := Some 22.5%float;
     StateUpdateEvent.Humidity := None;
     StateUpdateEvent.Battery := Some 97;
     StateUpdateEvent.Occupancy := None;
     StateUpdateEvent.Illuminance := None;
     StateUpdateEvent.Pressure := None;
     StateUpdateEvent.Contact := None;
     StateUpdateEvent.WaterLeak := None;
     StateUpdateEvent.Smoke := None;
     StateUpdateEvent.Tamper := None;
     StateUpdateEvent.On := None;
     StateUpdateEvent.Brightness := None;
     StateUpdateEvent.Hue := None;
     StateUpdateEvent.Saturation := None;
     StateUpdateEvent.ColorTemp := None;
     StateUpdateEvent.FanSpeed := None;
     StateUpdateEvent.LinkQuality := 142;
     StateUpdateEvent.LastSeen := seen;
     StateUpdateEvent.LastUpdated := 1000;
     StateUpdateEvent.ConnectionState := "connected";
     StateUpdateEvent.ConnectionNote := "Last seen: 0s ago" |}.

(** The door reports closed. *)
Definition doorClosed : StateUpdateEvent.t :=
  {| StateUpdateEvent.Timestamp := 2000;
     StateUpdateEvent.Source := "eventbus";
     StateUpdateEvent.DeviceID := "door";
     StateUpdateEvent.Name := "Front door";
     StateUpdateEvent.Temperature := None;
     StateUpdateEvent.Humidity := None;
     StateUpdateEvent.Battery := None;
     StateUpdateEvent.Occupancy := None;
     StateUpdateEvent.Illuminance := None;
     StateUpdateEvent.Pressure := None;
     StateUpdateEvent.Contact := Some true;
     StateUpdateEvent.WaterLeak := None;
     StateUpdateEvent.Smoke := None;
     StateUpdateEvent.Tamper := None;
     StateUpdateEvent.On := None;
     StateUpdateEvent.Brightness := None;
     StateUpdateEvent.Hue := None;
     StateUpdateEvent.Saturation := None;
     StateUpdateEvent.ColorTemp := None;
     StateUpdateEvent.FanSpeed := None;
     StateUpdateEvent.LinkQuality := 80;
     StateUpdateEvent.LastSeen := 2000;
     StateUpdateEvent.LastUpdated := 2000;
     StateUpdateEvent.ConnectionState := "connected";
     StateUpdateEvent.ConnectionNote := "Last seen: 0s ago" |}.

(** The adapter built for the door alone. *)
Definition doorAdapter : HAPManager :=
  match NewHAPManager [sampleDoor] New with
  | Some (hm, _) => hm
  | None => mkHAPManager ∅ [] 0 0 0
  end.

(** Two configured devices that share the identifier [x]. *)
Definition clashingConfig : list Device.t :=
  [ Device.mk "x" "Lamp" "lamp" DeviceTypeLightbulb DeviceFeatures.none
              None None;
    Device.mk "x" "Plug" "plug" DeviceTypeOutlet DeviceFeatures.none
              None None ].

(** The payload [{"temperature":22.5,"battery":97}], decoded. *)
Definition climateMessage : gmap string any :=
  {[ "temperature" := AnyFloat64 22.5%float; "battery" := AnyFloat64 97%float ]}.

(** The state changes the hook publishes for that payload received on the
    sensor's topic at the instants 1000 and 2000, each merged right after. *)
Definition repeatedChanges : list (StateChangedEvent.t * Time * Time) :=
  map (fun now => (now, now + 1, now + 1)) [1000; 2000]
  ≫= (fun '(now, sinceAt, stampAt) =>
        map (fun event => (event, sinceAt, stampAt))
            (stateChanges (OnPublish now "zigbee2mqtt/living-room"
                                     (Some climateMessage)
                                     (Some sampleSensor)))).

(** A fan message with a mode outside the five known ones. *)
Definition turboMessage : gmap string any :=
  {[ "fan_mode" := AnyString "turbo" ]}.

(** * Properties *)

(** ** Value codec *)

Lemma below_forallb (f : Z -> bool) (n : nat) :
  forallb f (map Z.of_nat (seq 0 n)) = true ->
  forall z, 0 <= z < Z.of_nat n -> f z = true.
Proof.
  intros Hall z Hz.
  rewrite forallb_forall in Hall. apply Hall.
  rewrite <- (Z2Nat.id z) by lia.
  apply in_map, in_seq. lia.
Qed.

Lemma z2mFloatPath_quot z : 0 < z < 254 -> z2mFloatPath z = z * 100 / 254.
Proof.
  intros Hz.
  apply Z.eqb_eq.
  apply (below_forallb (fun z => z2mFloatPath z =? z * 100 / 254) 254);
    [ vm_compute; reflexivity | lia ].
Qed.

Lemma hapFloatPath_quot z : 0 < z < 100 -> hapFloatPath z = z * 254 / 100.
Proof.
  intros Hz.
  apply Z.eqb_eq.
  apply (below_forallb (fun z => hapFloatPath z =? z * 254 / 100) 100);
    [ vm_compute; reflexivity | lia ].
Qed.

Lemma Z2MBrightnessToHAP_eq z :
  Z2MBrightnessToHAP z =
    if z <=? 0 then 0 else if z >=? 254 then 100 else z * 100 / 254.
Proof.
  unfold Z2MBrightnessToHAP.
  destruct (Z.leb_spec z 0); [ reflexivity | ].
  destruct (Z.geb_spec z 254); [ reflexivity | ].
  apply z2mFloatPath_quot. lia.
Qed.

Lemma HAPBrightnessToZ2M_eq z :
  HAPBrightnessToZ2M z =
    if z <=? 0 then 0 else if z >=? 100 then 254 else z * 254 / 100.
Proof.
  unfold HAPBrightnessToZ2M.
  destruct (Z.leb_spec z 0); [ reflexivity | ].
  destruct (Z.geb_spec z 100); [ reflexivity | ].
  apply hapFloatPath_quot. lia.
Qed.

Lemma Z2MBrightnessToHAP_range z : 0 <= Z2MBrightnessToHAP z <= 100.
Proof.
  rewrite Z2MBrightnessToHAP_eq.
  destruct (Z.leb_spec z 0); [ lia | ].
  destruct (Z.geb_spec z 254); [ lia | ].
  split; [ apply Z.div_pos; lia | ].
  apply Z.div_le_upper_bound; lia.
Qed.

Lemma HAPBrightnessToZ2M_range z : 0 <= HAPBrightnessToZ2M z <= 254.
Proof.
  rewrite HAPBrightnessToZ2M_eq.
  destruct (Z.leb_spec z 0); [ lia | ].
  destruct (Z.geb_spec z 100); [ lia | ].
  split; [ apply Z.div_pos; lia | ].
  apply Z.div_le_upper_bound; lia.
Qed.

(** C3.  For every integer [p] in [0,100], converting [p] to the bus scale
    with [HAPBrightnessToZ2M] and back with [Z2MBrightnessToHAP] yields a
    value that differs from [p] by at most 1. *)
Theorem brightness_round_trip (p : Z) :
  0 <= p <= 100 ->
  Z.abs (Z2MBrightnessToHAP (HAPBrightnessToZ2M p) - p) <= 1.
Proof.
  intros Hp.
  rewrite Z2MBrightnessToHAP_eq, HAPBrightnessToZ2M_eq.
  destruct (Z.leb_spec p 0).
  - simpl. lia.
  - destruct (Z.geb_spec p 100).
    + simpl. lia.
    + pose proof (Z.div_mod (p * 254) 100 ltac:(lia)) as Hq.
      pose proof (Z.mod_pos_bound (p * 254) 100 ltac:(lia)) as Hr.
      set (z := p * 254 / 100) in *.
      destruct (Z.leb_spec z 0); [ lia | ].
      destruct (Z.geb_spec z 254); [ lia | ].
      pose proof (Z.div_mod (z * 100) 254 ltac:(lia)) as Hq'.
      pose proof (Z.mod_pos_bound (z * 100) 254 ltac:(lia)) as Hr'.
      lia.
Qed.

Lemma brightness_round_trip_witness :
  0 <= 75 <= 100
  /\ Z.abs (Z2MBrightnessToHAP (HAPBrightnessToZ2M 75) - 75) <= 1.
Proof. split; [ lia | apply (brightness_round_trip 75); lia ]. Defined.


Lemma Z2MBrightnessToHAP_mono a b :
  a <= b -> Z2MBrightnessToHAP a <= Z2MBrightnessToHAP b.
Proof.
  intros Hab.
  pose proof (Z2MBrightnessToHAP_range a) as Ha.
  pose proof (Z2MBrightnessToHAP_range b) as Hb.
  revert Ha Hb. rewrite !Z2MBrightnessToHAP_eq.
  destruct (Z.leb_spec a 0), (Z.leb_spec b 0); try lia;
    destruct (Z.geb_spec a 254), (Z.geb_spec b 254); try lia.
  intros _ _. apply Z.div_le_mono; lia.
Qed.

Lemma HAPBrightnessToZ2M_mono a b :
  a <= b -> HAPBrightnessToZ2M a <= HAPBrightnessToZ2M b.
Proof.
  intros Hab.
  pose proof (HAPBrightnessToZ2M_range a) as Ha.
  pose proof (HAPBrightnessToZ2M_range b) as Hb.
  revert Ha Hb. rewrite !HAPBrightnessToZ2M_eq.
  destruct (Z.leb_spec a 0), (Z.leb_spec b 0); try lia;
    destruct (Z.geb_spec a 100), (Z.geb_spec b 100); try lia.
  intros _ _. apply Z.div_le_mono; lia.
Qed.

(** C9.  Both brightness conversions are monotone non-decreasing over all
    integers: [a <= b] gives [Z2MBrightnessToHAP a <= Z2MBrightnessToHAP b]
    and [HAPBrightnessToZ2M a <= HAPBrightnessToZ2M b]. *)
Theorem brightness_monotone (a b : Z) :
  a <= b ->
  Z2MBrightnessToHAP a <= Z2MBrightnessToHAP b
  /\ HAPBrightnessToZ2M a <= HAPBrightnessToZ2M b.
Proof.
  intros Hab. split.
  - by apply Z2MBrightnessToHAP_mono.
  - by apply HAPBrightnessToZ2M_mono.
Qed.

Lemma brightness_monotone_witness :
  64 <= 191
  /\ Z2MBrightnessToHAP 64 <= Z2MBrightnessToHAP 191
  /\ HAPBrightnessToZ2M 64 <= HAPBrightnessToZ2M 191.
Proof. split; [ lia | apply (brightness_monotone 64 191); lia ]. Defined.


(** The values the repository's tests expect. *)
Example Z2MBrightnessToHAP_tests :
  map Z2MBrightnessToHAP [0; 254; 127; 64; 191; 300; -10]
  = [0; 100; 50; 25; 75; 100; 0].
Proof. reflexivity. Qed.

Example HAPBrightnessToZ2M_tests :
  map HAPBrightnessToZ2M [0; 100; 50; 25; 75; 150; -10]
  = [0; 254; 127; 63; 190; 254; 0].
Proof. reflexivity. Qed.

Lemma ClampColorTemp_range (ct : Z) : 140 <= ClampColorTemp ct <= 500.
Proof.
  unfold ClampColorTemp.
  destruct (Z.ltb_spec ct 140); [ lia | ].
  destruct (Z.gtb_spec ct 500); lia.
Qed.

Lemma ClampColorTemp_id (ct : Z) : 140 <= ct <= 500 -> ClampColorTemp ct = ct.
Proof.
  intros Hct. unfold ClampColorTemp.
  destruct (Z.ltb_spec ct 140); [ lia | ].
  destruct (Z.gtb_spec ct 500); lia.
Qed.

(** ** Comparison of floats *)

Lemma finite_cases (f : float) :
  is_finite f = true ->
  (exists s, Prim2SF f = S754_zero s)
  \/ (exists s m e, Prim2SF f = S754_finite s m e).
Proof.
  unfold is_finite, is_nan, is_infinity.
  rewrite !FloatAxioms.eqb_spec, abs_spec.
  destruct (Prim2SF f) as [s | s | | s m e]; eauto.
  - destruct s; discriminate.
  - discriminate.
Qed.

(** A number minus itself is the positive zero. *)
Lemma finite_sub_diag (f : float) :
  is_finite f = true -> Prim2SF (f - f) = S754_zero false.
Proof.
  intros Hf. rewrite sub_spec.
  destruct (finite_cases f Hf) as [[s ->] | (s & m & e & ->)].
  - by destruct s.
  - unfold SF64sub, SFsub. cbv zeta. by rewrite Z.sub_diag.
Qed.

Lemma ptrFloatEqual_refl (v : option float) :
  finitePtr v = true -> ptrFloatEqual v v = true.
Proof.
  destruct v as [f | ]; [ | reflexivity ].
  simpl. intros Hf.
  assert (Hneg : ((f - f) <? 0)%float = false)
    by (rewrite ltb_spec, (finite_sub_diag f Hf); reflexivity).
  rewrite Hneg, ltb_spec, (finite_sub_diag f Hf). reflexivity.
Qed.

Lemma ptrBoolEqual_refl (v : option bool) : ptrBoolEqual v v = true.
Proof. by destruct v as [[] | ]. Qed.

Lemma ptrIntEqual_refl (v : option Z) : ptrIntEqual v v = true.
Proof. destruct v; simpl; [ apply Z.eqb_refl | reflexivity ]. Qed.

(** An infinity is not equal to itself for [ptrFloatEqual]: the difference is
    a NaN, which is below no bound. *)
Lemma ptrFloatEqual_infinity :
  ptrFloatEqual (Some infinity) (Some infinity) = false.
Proof. reflexivity. Qed.

Lemma Equals_refl (e : StateUpdateEvent.t) :
  finiteValues e -> StateUpdateEvent.Equals e e = true.
Proof.
  intros (Ht & Hh & Hp & Hhu & Hs).
  unfold StateUpdateEvent.Equals, time_Equal.
  rewrite !String.eqb_refl, !ptrBoolEqual_refl, !ptrIntEqual_refl,
    !ptrFloatEqual_refl, !Z.eqb_refl by assumption.
  reflexivity.
Qed.

(** [Equals] reads neither [Timestamp] nor [Source]. *)
Lemma Equals_sameLogicalState (e e' last : StateUpdateEvent.t) :
  sameLogicalState e e' ->
  StateUpdateEvent.Equals e last = StateUpdateEvent.Equals e' last.
Proof.
  unfold sameLogicalState. destruct e, e'; simpl.
  intros H. destruct_and!. subst. reflexivity.
Qed.

(** ** Deduplication in the event fabric *)

Lemma PublishStateUpdate_duplicate (bus : Bus) (client : ClientName)
    (event last : StateUpdateEvent.t) :
  lastStates bus !! StateUpdateEvent.DeviceID event = Some last ->
  StateUpdateEvent.Equals event last = true ->
  PublishStateUpdate bus client event
  = (bus, [Log Debug "skipping duplicate state update"
               (StateUpdateEvent.DeviceID event)]).
Proof. intros Hlast Heq. unfold PublishStateUpdate. by rewrite Hlast, Heq. Qed.

Lemma PublishStateUpdate_first (bus : Bus) (client : ClientName)
    (event : StateUpdateEvent.t) :
  lastStates bus !! StateUpdateEvent.DeviceID event = None ->
  PublishStateUpdate bus client event
  = (mkBus (clients bus)
           (<[ StateUpdateEvent.DeviceID event := event ]> (lastStates bus)),
     [Log Debug "publishing state update" (StateUpdateEvent.DeviceID event);
      Deliver client event]).
Proof. intros Hlast. unfold PublishStateUpdate. by rewrite Hlast. Qed.

Lemma PublishStateUpdate_changed (bus : Bus) (client : ClientName)
    (event last : StateUpdateEvent.t) :
  lastStates bus !! StateUpdateEvent.DeviceID event = Some last ->
  StateUpdateEvent.Equals event last = false ->
  delivered (PublishStateUpdate bus client event).2 = [event].
Proof. intros Hlast Heq. unfold PublishStateUpdate. by rewrite Hlast, Heq. Qed.

(** An event whose [LastSeen] differs from the retained one is forwarded. *)
Lemma Equals_LastSeen (event last : StateUpdateEvent.t) :
  StateUpdateEvent.LastSeen event <> StateUpdateEvent.LastSeen last ->
  StateUpdateEvent.Equals event last = false.
Proof.
  intros Hne. unfold StateUpdateEvent.Equals, time_Equal.
  apply Z.eqb_neq in Hne. rewrite Hne.
  rewrite !andb_false_r. reflexivity.
Qed.

(** C1, as the code has it.  When [PublishStateUpdate] is called with an
    event that agrees with the last event forwarded for the same device on
    every field but [Timestamp] and [Source] ([LastSeen] and [LastUpdated]
    included), the float fields being numbers, the event is dropped: nothing
    is delivered and the retained event stays.  In particular, publishing an
    event and then such a twin of it for a device with nothing retained
    delivers exactly one event, the first. *)
Theorem dedup_drops_same_state (bus : Bus) (client : ClientName)
    (last event : StateUpdateEvent.t) :
  sameLogicalState event last ->
  finiteValues last ->
  (lastStates bus !! StateUpdateEvent.DeviceID event = Some last ->
   PublishStateUpdate bus client event
   = (bus, [Log Debug "skipping duplicate state update"
                (StateUpdateEvent.DeviceID event)]))
  /\ (lastStates bus !! StateUpdateEvent.DeviceID last = None ->
      let first := PublishStateUpdate bus client last in
      let second := PublishStateUpdate first.1 client event in
      delivered (first.2 ++ second.2) = [last]).
Proof.
  intros Hsame Hfin.
  assert (Heq : StateUpdateEvent.Equals event last = true).
  { rewrite (Equals_sameLogicalState event last last Hsame).
    by apply Equals_refl. }
  assert (Hid : StateUpdateEvent.DeviceID event = StateUpdateEvent.DeviceID last)
    by apply Hsame.
  split.
  - intros Hlast. by apply PublishStateUpdate_duplicate with last.
  - intros Hnone first second. subst first second.
    rewrite (PublishStateUpdate_first _ _ _ Hnone). simpl.
    rewrite (PublishStateUpdate_duplicate _ _ event last); [ done | | done ].
    simpl. rewrite Hid. apply lookup_insert_eq.
Qed.

Lemma dedup_drops_same_state_witness :
  sameLogicalState (sampleUpdate 2000 1000) (sampleUpdate 1000 1000)
  /\ finiteValues (sampleUpdate 1000 1000)
  /\ let first := PublishStateUpdate New ClientDeviceManager
                     (sampleUpdate 1000 1000) in
     let second := PublishStateUpdate first.1 ClientDeviceManager
                     (sampleUpdate 2000 1000) in
     delivered (first.2 ++ second.2) = [sampleUpdate 1000 1000].
Proof.
  assert (Hsame : sameLogicalState (sampleUpdate 2000 1000)
                                   (sampleUpdate 1000 1000))
    by (vm_compute; repeat split).
  assert (Hfin : finiteValues (sampleUpdate 1000 1000))
    by (vm_compute; repeat split).
  split; [ exact Hsame | ]. split; [ exact Hfin | ].
  apply (dedup_drops_same_state New ClientDeviceManager
           (sampleUpdate 1000 1000) (sampleUpdate 2000 1000) Hsame Hfin).
  reflexivity.
Defined.

(** C1, as stated, fails: an event that agrees with the retained one on every
    field that is not a timestamp, and was last seen at another instant, is
    delivered. *)
Lemma dedup_timestamps_counterexample :
  ~ (forall (bus : Bus) (client : ClientName)
            (event last : StateUpdateEvent.t),
        lastStates bus !! StateUpdateEvent.DeviceID event = Some last ->
        sameButTimestamps event last ->
        delivered (PublishStateUpdate bus client event).2 = []).
Proof.
  intros Hclaim.
  specialize
    (Hclaim (PublishStateUpdate New ClientDeviceManager
                                (sampleUpdate 1000 1000)).1
            ClientDeviceManager (sampleUpdate 2000 2000)
            (sampleUpdate 1000 1000)).
  assert (Hdelivered :
            delivered
              (PublishStateUpdate
                 (PublishStateUpdate New ClientDeviceManager
                                     (sampleUpdate 1000 1000)).1
                 ClientDeviceManager (sampleUpdate 2000 2000)).2
            = [sampleUpdate 2000 2000])
    by (apply PublishStateUpdate_changed with (sampleUpdate 1000 1000);
        reflexivity).
  rewrite Hdelivered in Hclaim.
  discriminate Hclaim; [ reflexivity | vm_compute; repeat split ].
Qed.

(** The same holds end to end: the hook stamps every message with the instant
    it arrived, so a payload that repeats is forwarded each time. *)
Example repeated_message_forwarded_twice :
  length (stateChanges
            (OnPublish 1000 "zigbee2mqtt/living-room" (Some climateMessage)
                       (Some sampleSensor))) = 1%nat
  /\ map StateUpdateEvent.Temperature
         (delivered (ProcessStateEvents (H := sampleLib) sampleManager New
                                        repeatedChanges).2)
     = [Some 22.5%float; Some 22.5%float]
  /\ map StateUpdateEvent.LastSeen
         (delivered (ProcessStateEvents (H := sampleLib) sampleManager New
                                        repeatedChanges).2)
     = [1000; 2000].
Proof. vm_compute. repeat split. Qed.

(** ** Selective merge *)

Lemma mergeField_other (f : Field) (candidate state : State.t) (field : string) :
  fieldName f <> field ->
  readField f (mergeField candidate state field) = readField f state.
Proof.
  intros Hne. unfold mergeField.
  repeat
    match goal with
    | |- context [String.eqb field ?name] =>
        destruct (String.eqb_spec field name) as [-> | _];
        [ by destruct f, state | ]
    end.
  reflexivity.
Qed.

Lemma mergeField_named (f : Field) (candidate state : State.t) :
  mergeable f = true ->
  readField f (mergeField candidate state (fieldName f)) = readField f candidate.
Proof. by destruct f, state. Qed.

Lemma mergeField_keeps (f : Field) (candidate state : State.t) (field : string) :
  mergeable f = true ->
  readField f state = readField f candidate ->
  readField f (mergeField candidate state field) = readField f candidate.
Proof.
  intros Hm Heq.
  destruct (decide (fieldName f = field)) as [<- | Hne].
  - by apply mergeField_named.
  - by rewrite mergeField_other.
Qed.

Lemma mergeState_fold (event : StateChangedEvent.t) (state : State.t) :
  mergeState event state =
    fold_left (mergeField (StateChangedEvent.State event))
              (StateChangedEvent.UpdatedFields event) state.
Proof.
  unfold mergeState.
  by destruct (StateChangedEvent.UpdatedFields event).
Qed.

Lemma merge_fields_other (f : Field) (candidate : State.t) (fields : list string) :
  forall state,
    fieldName f ∉ fields ->
    readField f (fold_left (mergeField candidate) fields state)
    = readField f state.
Proof.
  induction fields as [ | field fields IH ]; intros state Hnot; [ done | ].
  apply not_elem_of_cons in Hnot as [Hne Hnot].
  simpl. rewrite IH by done. by apply mergeField_other.
Qed.

Lemma merge_fields_keep (f : Field) (candidate : State.t) (fields : list string) :
  forall state,
    mergeable f = true ->
    readField f state = readField f candidate ->
    readField f (fold_left (mergeField candidate) fields state)
    = readField f candidate.
Proof.
  induction fields as [ | field fields IH ]; intros state Hm Heq; [ done | ].
  simpl. apply IH; [ done | ]. by apply mergeField_keeps.
Qed.

Lemma merge_fields_named (f : Field) (candidate : State.t) (fields : list string) :
  forall state,
    mergeable f = true ->
    fieldName f ∈ fields ->
    readField f (fold_left (mergeField candidate) fields state)
    = readField f candidate.
Proof.
  induction fields as [ | field fields IH ]; intros state Hm Hin.
  - by apply elem_of_nil in Hin.
  - simpl. apply elem_of_cons in Hin as [<- | Hin].
    + apply merge_fields_keep; [ done | ]. by apply mergeField_named.
    + by apply IH.
Qed.

(** ** State events in the manager *)

Lemma processStateEvent_known `{GoLib} (dm : Manager) (bus : Bus)
    (sinceAt stampAt : Time) (event : StateChangedEvent.t) (state : State.t) :
  let id := StateChangedEvent.DeviceID event in
  states dm !! id = Some state ->
  let state' := mergeState event state in
  let dm' := mkManager (devices dm) (<[ id := state' ]> (states dm))
                       (eventBus dm) (mqttServer dm) in
  let sent := publishStateUpdate dm' bus sinceAt stampAt "eventbus" id state' in
  processStateEvent dm bus sinceAt stampAt event
  = (dm', sent.1, Log Debug "Merged state from eventbus" id :: sent.2).
Proof.
  intros id Hst state' dm' sent.
  unfold processStateEvent. fold id. rewrite Hst.
  fold state' dm' sent. by destruct sent.
Qed.

Lemma processStateEvent_consistent `{GoLib} (dm : Manager) (bus : Bus)
    (sinceAt stampAt : Time) (event : StateChangedEvent.t) :
  consistent dm ->
  consistent (processStateEvent dm bus sinceAt stampAt event).1.1.
Proof.
  intros Hc.
  destruct (states dm !! StateChangedEvent.DeviceID event) as [state | ] eqn:Hst.
  - rewrite (processStateEvent_known _ _ _ _ _ _ Hst). simpl.
    intros id. simpl. rewrite (Hc id).
    destruct (decide (StateChangedEvent.DeviceID event = id)) as [<- | Hne].
    + rewrite lookup_insert_eq, Hst. split; discriminate.
    + by rewrite lookup_insert_ne.
  - unfold processStateEvent. by rewrite Hst.
Qed.

Lemma initDevices_consistent `{GoLib} (clock : nat -> Time)
    (deviceConfigs : list Device.t) :
  forall n dm bus,
    consistent dm ->
    consistent (initDevices clock n dm bus deviceConfigs).1.1.
Proof.
  induction deviceConfigs as [ | d rest IH ]; intros n dm bus Hc; [ done | ].
  simpl.
  destruct (publishStateUpdate _ _ _ _ _ _ _) as [bus1 out1].
  match goal with
  | |- context [initDevices clock ?n' ?dm' ?bus' rest] =>
      specialize (IH n' dm' bus');
      destruct (initDevices clock n' dm' bus' rest) as [[dm2 bus2] out2]
  end.
  simpl in *. apply IH.
  intros id. simpl.
  destruct (decide (Device.ID d = id)) as [<- | Hne].
  - rewrite !lookup_insert_eq. split; discriminate.
  - rewrite !lookup_insert_ne by done. apply Hc.
Qed.

(** A manager built by [NewManager] holds a state for exactly the devices of
    its registry, and is wired to the fabric. *)
Lemma NewManager_consistent `{GoLib} (deviceConfigs : list Device.t) (bus : Bus)
    (server : string -> string -> option GoError) (clock : nat -> Time)
    (dm : Manager) (bus' : Bus) (out : list Effect) :
  NewManager deviceConfigs bus server clock = inr (dm, bus', out) ->
  consistent dm.
Proof.
  unfold NewManager. destruct (Client bus ClientDeviceManager); [ done | ].
  intros [= Heq].
  change dm with (dm, bus', out).1.1. rewrite <- Heq.
  apply initDevices_consistent. intros id. simpl. by rewrite !lookup_empty.
Qed.

Lemma ProcessStateEvents_consistent `{GoLib}
    (events : list (StateChangedEvent.t * Time * Time)) :
  forall dm bus,
    consistent dm -> consistent (ProcessStateEvents dm bus events).1.1.
Proof.
  induction events as [ | [[event sinceAt] stampAt] rest IH ];
    intros dm bus Hc; [ done | ].
  simpl.
  pose proof (processStateEvent_consistent dm bus sinceAt stampAt event Hc)
    as Hstep.
  destruct (processStateEvent dm bus sinceAt stampAt event)
    as [[dm1 bus1] out1].
  specialize (IH dm1 bus1 Hstep).
  by destruct (ProcessStateEvents dm1 bus1 rest) as [[dm2 bus2] out2].
Qed.

(** C5.  A [StateChanged] event whose device identifier is not in the
    registry changes neither the manager nor the fabric, hands nothing to the
    fabric, and leaves a warning; the loop then goes on with the events that
    follow, exactly as if the event had not been there. *)
Theorem unknown_device_dropped `{GoLib} (dm : Manager) (bus : Bus)
    (sinceAt stampAt : Time) (event : StateChangedEvent.t)
    (rest : list (StateChangedEvent.t * Time * Time)) :
  consistent dm ->
  devices dm !! StateChangedEvent.DeviceID event = None ->
  let warning := Log Warn "Received state event for unknown device"
                     (StateChangedEvent.DeviceID event) in
  processStateEvent dm bus sinceAt stampAt event = (dm, bus, [warning])
  /\ ProcessStateEvents dm bus ((event, sinceAt, stampAt) :: rest)
     = ((ProcessStateEvents dm bus rest).1,
        warning :: (ProcessStateEvents dm bus rest).2).
Proof.
  intros Hc Hnone warning.
  apply Hc in Hnone.
  assert (Hstep : processStateEvent dm bus sinceAt stampAt event
                  = (dm, bus, [warning])).
  { unfold processStateEvent. by rewrite Hnone. }
  split; [ done | ].
  simpl. rewrite Hstep.
  by destruct (ProcessStateEvents dm bus rest) as [[dm' bus'] out].
Qed.

Lemma sampleManager_consistent : consistent sampleManager.
Proof.
  intros id. simpl.
  destruct (decide (id = "sensor")) as [-> | Hne].
  - by rewrite !lookup_singleton_eq.
  - by rewrite !lookup_singleton_ne.
Qed.

Lemma unknown_device_dropped_witness :
  consistent sampleManager
  /\ devices sampleManager !! "ghost" = None
  /\ processStateEvent (H := sampleLib) sampleManager New 500 500 strayChange
     = (sampleManager, New,
        [Log Warn "Received state event for unknown device" "ghost"]).
Proof.
  split; [ exact sampleManager_consistent | ].
  split; [ reflexivity | ].
  apply (unknown_device_dropped (H := sampleLib) sampleManager New 500 500
           strayChange [] sampleManager_consistent eq_refl).
Defined.


(** C2.  For a stored state and a [StateChanged] event of its device, the
    merge leaves every field that the event's field list does not name as it
    was, whatever the candidate state carries for it, overwrites every named
    field the merge knows with the candidate's value, and touches the state of
    no other device. *)
Theorem selective_merge `{GoLib} (dm : Manager) (bus : Bus)
    (sinceAt stampAt : Time) (event : StateChangedEvent.t) (state : State.t) :
  let id := StateChangedEvent.DeviceID event in
  let fields := StateChangedEvent.UpdatedFields event in
  let dm' := (processStateEvent dm bus sinceAt stampAt event).1.1 in
  states dm !! id = Some state ->
  exists state',
    states dm' !! id = Some state'
    /\ (forall f, fieldName f ∉ fields ->
                  readField f state' = readField f state)
    /\ (forall f, mergeable f = true -> fieldName f ∈ fields ->
                  readField f state'
                  = readField f (StateChangedEvent.State event))
    /\ (forall other, other <> id -> states dm' !! other = states dm !! other).
Proof.
  intros id fields dm' Hst.
  exists (mergeState event state).
  subst dm'. rewrite (processStateEvent_known _ _ _ _ _ _ Hst). simpl.
  fold id. rewrite mergeState_fold. fold fields.
  split; [ apply lookup_insert_eq | ].
  split; [ intros f Hf; by apply merge_fields_other | ].
  split; [ intros f Hm Hf; by apply merge_fields_named | ].
  intros other Hne. by apply lookup_insert_ne.
Qed.

Lemma selective_merge_witness :
  states sampleManager !! "sensor" = Some sampleState
  /\ exists state',
       states (processStateEvent (H := sampleLib) sampleManager New 500 500
                                 sampleChange).1.1 !! "sensor" = Some state'
       /\ State.Temperature state' = Some 20%float
       /\ State.Humidity state' = Some 55%float.
Proof.
  split; [ reflexivity | ].
  destruct (selective_merge (H := sampleLib) sampleManager New 500 500
              sampleChange sampleState eq_refl)
    as (state' & Hstate & Hkeep & Hset & _).
  exists state'. split; [ exact Hstate | ]. split.
  - assert (Hnot : fieldName FTemperature ∉ ["Humidity"]).
    { intros Hin. apply list_elem_of_singleton in Hin. discriminate Hin. }
    specialize (Hkeep FTemperature Hnot). simpl in Hkeep. congruence.
  - assert (Hin : fieldName FHumidity ∈ ["Humidity"])
      by apply list_elem_of_singleton, eq_refl.
    specialize (Hset FHumidity eq_refl Hin). simpl in Hset. congruence.
Defined.


(** C4, as the code has it.  For a [StateChanged] event accepted for a
    registered device, the merge overwrites the stored last-updated timestamp
    with the one of the event's candidate state when the field list names
    [LastUpdated], and leaves it as it was otherwise; the clock is not read
    for it.  The manager then hands to the fabric the [StateUpdate] built
    from the post-merge state with source tag [eventbus]. *)
Theorem merge_last_updated `{GoLib} (dm : Manager) (bus : Bus)
    (sinceAt stampAt : Time) (event : StateChangedEvent.t) (state : State.t) :
  let id := StateChangedEvent.DeviceID event in
  let fields := StateChangedEvent.UpdatedFields event in
  let result := processStateEvent dm bus sinceAt stampAt event in
  let dm' := result.1.1 in
  states dm !! id = Some state ->
  eventBus dm = true ->
  exists state',
    states dm' !! id = Some state'
    /\ State.LastUpdated state'
       = (if bool_decide ("LastUpdated" ∈ fields)
          then State.LastUpdated (StateChangedEvent.State event)
          else State.LastUpdated state)
    /\ let update := stateUpdateOf dm' sinceAt stampAt "eventbus" id state' in
       let sent := PublishStateUpdate bus ClientDeviceManager update in
       StateUpdateEvent.Source update = "eventbus"
       /\ result.1.2 = sent.1
       /\ result.2 = Log Debug "Merged state from eventbus" id :: sent.2.
Proof.
  intros id fields result dm' Hst Hbus.
  exists (mergeState event state).
  subst dm' result. rewrite (processStateEvent_known _ _ _ _ _ _ Hst). simpl.
  fold id. split; [ apply lookup_insert_eq | ]. split.
  - rewrite mergeState_fold. fold fields.
    assert (Hread : forall s s', readField FLastUpdated s = readField FLastUpdated s'
                                 -> State.LastUpdated s = State.LastUpdated s').
    { intros s s'. simpl. congruence. }
    case_bool_decide as Hin; apply Hread.
    + by apply merge_fields_named.
    + by apply merge_fields_other.
  - unfold publishStateUpdate. simpl. rewrite Hbus. simpl.
    split; [ | done ].
    unfold stateUpdateOf. by destruct (connectionStatus _ _).
Qed.

Lemma merge_last_updated_witness :
  states sampleManager !! "sensor" = Some sampleState
  /\ eventBus sampleManager = true
  /\ exists state',
       states (processStateEvent (H := sampleLib) sampleManager New 500 500
                                 sampleChange).1.1 !! "sensor" = Some state'
       /\ State.LastUpdated state' = 100.
Proof.
  split; [ reflexivity | ]. split; [ reflexivity | ].
  destruct (merge_last_updated (H := sampleLib) sampleManager New 500 500
              sampleChange sampleState eq_refl eq_refl)
    as (state' & Hstate & Hupdated & _).
  exists state'. split; [ exact Hstate | ]. exact Hupdated.
Defined.

(** C4, as stated, fails: with a field list that does not name [LastUpdated]
    the stored timestamp stays where it was, before the instants the clock
    shows during the merge. *)
Lemma merge_last_updated_counterexample :
  ~ (forall (L : GoLib) (dm : Manager) (bus : Bus) (sinceAt stampAt : Time)
            (event : StateChangedEvent.t) (state : State.t),
        states dm !! StateChangedEvent.DeviceID event = Some state ->
        exists state',
          states (processStateEvent dm bus sinceAt stampAt event).1.1
            !! StateChangedEvent.DeviceID event = Some state'
          /\ sinceAt <= State.LastUpdated state' <= stampAt).
Proof.
  intros Hclaim.
  destruct (Hclaim sampleLib sampleManager New 500 500 sampleChange
                   sampleState eq_refl)
    as (state' & Hstate & Hnow).
  vm_compute in Hstate. injection Hstate as <-.
  simpl in Hnow. lia.
Qed.


(** ** Commands *)

Lemma mqttPublishes_logFailure (msg id : string)
    (r : option GoError * list Effect) :
  mqttPublishes (logFailure msg id r) = mqttPublishes r.2.
Proof.
  destruct r as [[err | ] out]; simpl; [ | done ].
  unfold mqttPublishes. rewrite omap_app. simpl. by rewrite app_nil_r.
Qed.

Lemma SetBrightness_publishes (dm : Manager) (deviceID : string)
    (info : Device.t) (brightness : Z) :
  devices dm !! deviceID = Some info ->
  mqttPublishes (SetBrightness dm deviceID brightness).2
  = [("zigbee2mqtt/" +:+ Device.Topic info +:+ "/set",
      jsonObject "brightness" (pretty (HAPBrightnessToZ2M brightness)))].
Proof.
  intros Hinfo. unfold SetBrightness. rewrite Hinfo.
  by destruct (mqttServer dm _ _).
Qed.

(** C6.  For a registered device, a command that carries the brightness 75
    (HAP scale) results in exactly one bus publish, to the topic
    [zigbee2mqtt/<routing key>/set], whose payload is the JSON text
    [{"brightness":190}]. *)
Theorem brightness_command_publish `{GoLib} (dm : Manager) (deviceID : string)
    (info : Device.t) :
  devices dm !! deviceID = Some info ->
  mqttPublishes
    (processCommand dm (CommandEvent.mk deviceID None (Some 75) None None None))
  = [("zigbee2mqtt/" +:+ Device.Topic info +:+ "/set",
      "{" +:+ dquote +:+ "brightness" +:+ dquote +:+ ":190}")].
Proof.
  intros Hinfo. unfold processCommand. simpl.
  rewrite app_nil_r, mqttPublishes_logFailure.
  by rewrite (SetBrightness_publishes dm deviceID info 75 Hinfo).
Qed.

Lemma brightness_command_publish_witness :
  devices sampleManager !! "sensor" = Some sampleSensor
  /\ mqttPublishes
       (processCommand (H := sampleLib) sampleManager
          (CommandEvent.mk "sensor" None (Some 75) None None None))
     = [("zigbee2mqtt/living-room/set",
         "{" +:+ dquote +:+ "brightness" +:+ dquote +:+ ":190}")].
Proof.
  split; [ reflexivity | ].
  apply (brightness_command_publish (H := sampleLib) sampleManager "sensor"
           sampleSensor eq_refl).
Defined.


(** ** State application in the accessory adapter *)

Lemma contactWrites_app (out out' : list Effect) :
  contactWrites (out ++ out') = contactWrites out ++ contactWrites out'.
Proof. apply omap_app. Qed.

Lemma contactWrites_whenBoth {A} (present : bool) (v : option A)
    (calls : A -> list Effect) :
  (forall x, contactWrites (calls x) = []) ->
  contactWrites (whenBoth present v calls) = [].
Proof. intros Hcalls. destruct present, v; simpl; auto. Qed.

Lemma createAccessory_contact_sensor (device : Device.t) :
  Device.Type_ device = DeviceTypeContactSensor ->
  exists accInfo,
    createAccessory device = Some accInfo
    /\ AccessoryInfo.Contact accInfo = true.
Proof.
  intros Hty. unfold createAccessory. rewrite Hty. simpl.
  eexists. split; [ reflexivity | ].
  unfold createContactSensor, addIf.
  by destruct (DeviceFeatures.Battery _).
Qed.

(** C7.  For an accessory with a contact sensor and a state update whose
    contact field is set, applying the update writes the contact
    characteristic once: 0 (detected, closed) when the bus boolean is true,
    1 (not detected, open) when it is false; it never writes the boolean as
    it stands (1 for true, 0 for false). *)
Theorem contact_state_inverted (hm : HAPManager) (nowUnix : Z)
    (event : StateUpdateEvent.t) (accInfo : AccessoryInfo.t) (contact : bool) :
  accessories hm !! StateUpdateEvent.DeviceID event = Some accInfo ->
  AccessoryInfo.Contact accInfo = true ->
  StateUpdateEvent.Contact event = Some contact ->
  contactWrites (UpdateState hm nowUnix event).2
  = [IntValue (if contact then 0 else 1)]
  /\ contactWrites (UpdateState hm nowUnix event).2
     <> [IntValue (if contact then 1 else 0)].
Proof.
  intros Hacc Hpresent Hcontact.
  assert (Hwrites : contactWrites (UpdateState hm nowUnix event).2
                    = [IntValue (if contact then 0 else 1)]);
    [ | split; [ exact Hwrites | rewrite Hwrites; by destruct contact ] ].
  unfold UpdateState. rewrite Hacc. cbn [snd].
  rewrite Hpresent, Hcontact.
  set (write := whenBoth true (Some contact) _).
  rewrite !contactWrites_app.
  rewrite !contactWrites_whenBoth by (intros; reflexivity).
  reflexivity.
Qed.

Lemma contact_state_inverted_witness :
  accessories doorAdapter !! "door"
  = Some (createContactSensor sampleDoor
            (AccessoryInfo.init DeviceTypeContactSensor "door"))
  /\ contactWrites (UpdateState doorAdapter 7 doorClosed).2
     = [IntValue 0].
Proof.
  split; [ reflexivity | ].
  apply (contact_state_inverted doorAdapter 7 doorClosed
           (createContactSensor sampleDoor
              (AccessoryInfo.init DeviceTypeContactSensor "door"))
           true eq_refl eq_refl eq_refl).
Defined.


(** ** Registry loader *)

Lemma validateFrom_seen (ds : list Device.t) :
  forall i seenIDs d,
    d ∈ ds -> Device.ID d ∈ seenIDs ->
    exists err, validateFrom i seenIDs ds = inl err.
Proof.
  induction ds as [ | device rest IH ]; intros i seenIDs d Hin Hseen.
  - by apply elem_of_nil in Hin.
  - simpl.
    repeat match goal with
           | |- context [if ?c then inl ?e else _] =>
               destruct c eqn:?; [ by exists e | ]
           end.
    apply elem_of_cons in Hin as [-> | Hin].
    + match goal with
      | Hd : bool_decide _ = false |- _ => apply bool_decide_eq_false in Hd
      end. done.
    + destruct (IH (S i) ({[ Device.ID device ]} ∪ seenIDs) d Hin) as [err ->];
        [ set_solver | by exists err ].
Qed.

Lemma validateFrom_duplicate (ds : list Device.t) :
  forall i seenIDs j k d1 d2,
    (j < k)%nat -> ds !! j = Some d1 -> ds !! k = Some d2 ->
    Device.ID d1 = Device.ID d2 ->
    exists err, validateFrom i seenIDs ds = inl err.
Proof.
  induction ds as [ | device rest IH ];
    intros i seenIDs j k d1 d2 Hjk Hj Hk Hid; [ done | ].
  simpl.
  repeat match goal with
         | |- context [if ?c then inl ?e else _] =>
             destruct c eqn:?; [ by exists e | ]
         end.
  destruct k as [ | k ]; [ lia | ]. simpl in Hk.
  destruct j as [ | j ]; simpl in Hj.
  - injection Hj as ->.
    destruct (validateFrom_seen rest (S i) ({[ Device.ID d1 ]} ∪ seenIDs) d2)
      as [err ->]; [ by eapply list_elem_of_lookup_2 | set_solver | ].
    by exists err.
  - destruct (IH (S i) ({[ Device.ID device ]} ∪ seenIDs) j k d1 d2)
      as [err ->]; [ lia | done.. | ].
    by exists err.
Qed.

(** C8.  When two devices of a configuration document share an identifier,
    [LoadConfig] returns an error and no configuration: no device is
    registered. *)
Theorem duplicate_ids_rejected (devices : list Device.t) (j k : nat)
    (d1 d2 : Device.t) :
  j <> k ->
  devices !! j = Some d1 ->
  devices !! k = Some d2 ->
  Device.ID d1 = Device.ID d2 ->
  exists err, LoadConfig (DecodedConfig devices) = inl err.
Proof.
  intros Hjk Hj Hk Hid. unfold LoadConfig.
  destruct (length devices =? 0)%nat; [ by eexists | ].
  destruct (decide (j < k)%nat).
  - by apply (validateFrom_duplicate devices 0 ∅ j k d1 d2).
  - apply (validateFrom_duplicate devices 0 ∅ k j d2 d1); [ lia | done.. ].
Qed.

Lemma duplicate_ids_rejected_witness :
  0%nat <> 1%nat
  /\ exists err, LoadConfig (DecodedConfig clashingConfig) = inl err.
Proof.
  split; [ discriminate | ].
  eapply (duplicate_ids_rejected clashingConfig 0 1);
    [ discriminate | reflexivity | reflexivity | reflexivity ].
Defined.

Example duplicate_ids_error :
  LoadConfig (DecodedConfig clashingConfig) = inl (ErrDuplicateID "x").
Proof. reflexivity. Qed.


(** ** Ingestion hook *)

Lemma parseField_preserves {A} (P : State.t -> Prop) (v : option A)
    (set : A -> State.t -> State.t) (name : string) (acc : Parsed) :
  (forall x s, P s -> P (set x s)) ->
  P (parsed_state acc) ->
  P (parsed_state (parseField v set name acc)).
Proof. intros Hset Hacc. destruct v; simpl; auto. Qed.

(** The hook stamps every message with its clock reading and always names the
    two connectivity fields. *)
Lemma parseZ2MMessage_stamps (now : Time) (device : Device.t)
    (msg : gmap string any) :
  let parsed := parseZ2MMessage now device msg in
  (State.LastUpdated (parsed_state parsed) = now
   /\ State.LastSeen (parsed_state parsed) = now)
  /\ "LastSeen" ∈ parsed_fields parsed
  /\ "LastUpdated" ∈ parsed_fields parsed.
Proof.
  intros parsed. subst parsed. split.
  - set (P := fun s => State.LastUpdated s = now /\ State.LastSeen s = now).
    change (P (parsed_state (parseZ2MMessage now device msg))).
    assert (HOn : forall v s, P s -> P (State.set_On v s)) by (by intros v []).
    unfold parseZ2MMessage.
    repeat
      match goal with
      | |- P (parsed_state (parseField _ _ _ _)) =>
          apply (parseField_preserves P); [ by intros x [] | ]
      | |- P (parsed_state ((fun acc => _) _)) => cbn beta
      | |- P (parsed_state (mkParsed _ _ _)) => cbn [parsed_state]
      | |- P (parsed_state (match ?o with Some _ => _ | None => _ end)) =>
          destruct o
      | |- P (State.set_On _ _) => apply HOn
      end.
    all: done.
  - unfold parseZ2MMessage. cbn beta. cbn [parsed_fields].
    split; apply elem_of_app; right; set_solver.
Qed.

(** The hook ignores topics outside the device namespace, bridge topics and
    command echoes. *)
Example OnPublish_filters :
  map (fun topic =>
         stateChanges (OnPublish 1000 topic (Some climateMessage)
                                 (Some sampleSensor)))
      ["homeassistant/living-room"; "zigbee2mqtt/bridge/state";
       "zigbee2mqtt/living-room/set"; "zigbee2mqtt/living-room/get"]
  = [[]; []; []; []].
Proof. reflexivity. Qed.

(** C10.  For a message whose [fan_mode] is a string outside the five known
    modes, the hook sets the fan speed to 50 and names [FanSpeed] among the
    updated fields; parsing has no error result. *)
Theorem unknown_fan_mode_defaults (now : Time) (device : Device.t)
    (msg : gmap string any) (fanMode : string) :
  msg !! "fan_mode" = Some (AnyString fanMode) ->
  fanMode ∉ ["off"; "low"; "medium"; "high"; "auto"] ->
  let parsed := parseZ2MMessage now device msg in
  State.FanSpeed (parsed_state parsed) = Some 50
  /\ "FanSpeed" ∈ parsed_fields parsed.
Proof.
  intros Hmode Hnot parsed. subst parsed.
  unfold parseZ2MMessage. rewrite Hmode. cbn beta.
  cbn [asString parseField parsed_state parsed_fields].
  split.
  - match goal with
    | |- State.FanSpeed (State.set_FanSpeed ?v ?s) = _ =>
        transitivity v; [ by destruct s | ]
    end.
    unfold fanModeSpeed.
    repeat match goal with
           | |- context [String.eqb fanMode ?m] =>
               destruct (String.eqb_spec fanMode m) as [-> | _];
               [ exfalso; apply Hnot; set_solver | ]
           end.
    reflexivity.
  - set_solver.
Qed.

Lemma unknown_fan_mode_defaults_witness :
  turboMessage !! "fan_mode" = Some (AnyString "turbo")
  /\ State.FanSpeed (parsed_state (parseZ2MMessage 5 sampleSensor turboMessage))
     = Some 50.
Proof.
  split; [ reflexivity | ].
  assert (Hnot : "turbo" ∉ ["off"; "low"; "medium"; "high"; "auto"]).
  { intros H.
    repeat (apply elem_of_cons in H as [H | H]; [ discriminate H | ]).
    by apply elem_of_nil in H. }
  apply (unknown_fan_mode_defaults 5 sampleSensor turboMessage "turbo"
           eq_refl Hnot).
Defined.

